(** * Verification model of aemcli: path mapping, package building and the
    repo transfer commands (src/aemcli/commands/repo.py and
    src/aemcli/commands/content_cleanup.py).

    Python [str] values are represented by Rocq [string]s holding their
    UTF-8 encoding; every string operation used by the code (replace,
    startswith, endswith, split, strip, in) compares ASCII separators, which
    behave the same on code points and on their UTF-8 encoding. *)

From Stdlib Require Import String Ascii List Bool Arith Lia ZArith.
Import ListNotations.
Open Scope list_scope.
Open Scope string_scope.

(** ** Python string primitives *)
Module Py.

(** [s.startswith(p)] *)
Fixpoint startswith (p s : string) : bool :=
  match p, s with
  | EmptyString, _ => true
  | String c p', String d s' => Ascii.eqb c d && startswith p' s'
  | String _ _, EmptyString => false
  end.

(** Index of the first occurrence of [sep] in [s] ([s.find(sep)]). *)
Fixpoint find (sep s : string) : option nat :=
  if startswith sep s then Some 0
  else match s with
       | EmptyString => None
       | String _ s' => option_map S (find sep s')
       end.

(** [sep in s] *)
Definition contains (sep s : string) : bool :=
  match find sep s with Some _ => true | None => false end.

Fixpoint take (n : nat) (s : string) : string :=
  match n, s with
  | O, _ => EmptyString
  | S n', String c s' => String c (take n' s')
  | S _, EmptyString => EmptyString
  end.

Fixpoint drop (n : nat) (s : string) : string :=
  match n, s with
  | O, _ => s
  | S n', String _ s' => drop n' s'
  | S _, EmptyString => EmptyString
  end.

(** [s.endswith(p)] *)
Definition endswith (p s : string) : bool :=
  Nat.leb (String.length p) (String.length s) && String.eqb (drop (String.length s - String.length p) s) p.

(** [s[:-n]] for [n <= len(s)] *)
Definition drop_last (n : nat) (s : string) : string := take (String.length s - n) s.

(** [s.replace(old, new)] for a non-empty [old]: occurrences are replaced
    left to right without overlap; [k] counts the characters of the last
    replaced occurrence that remain to be skipped. *)
Fixpoint replace_go (old new s : string) (k : nat) : string :=
  match s with
  | EmptyString => EmptyString
  | String c s' =>
      match k with
      | S k' => replace_go old new s' k'
      | O => if startswith old s
             then new ++ replace_go old new s' (String.length old - 1)
             else String c (replace_go old new s' 0)
      end
  end.

Definition replace (old new s : string) : string := replace_go old new s 0.

(** [s.split(sep, 1)] *)
Definition split1 (sep s : string) : list string :=
  match find sep s with
  | None => [s]
  | Some i => [take i s; drop (i + String.length sep) s]
  end.

(** [s.split(sep)] for a non-empty [sep]; [fuel] bounds the number of
    pieces and is [length s + 1] at the entry point. *)
Fixpoint split_fuel (fuel : nat) (sep s : string) : list string :=
  match fuel with
  | O => [s]
  | S f =>
      match find sep s with
      | None => [s]
      | Some i => take i s :: split_fuel f sep (drop (i + String.length sep) s)
      end
  end.

Definition split (sep s : string) : list string :=
  split_fuel (S (String.length s)) sep s.

(** [sep.join(xs)] *)
Fixpoint join (sep : string) (xs : list string) : string :=
  match xs with
  | [] => EmptyString
  | [x] => x
  | x :: xs' => x ++ sep ++ join sep xs'
  end.

Definition char_in (c : ascii) (cs : string) : bool :=
  contains (String c EmptyString) cs.

Fixpoint lstrip (cs s : string) : string :=
  match s with
  | String c s' => if char_in c cs then lstrip cs s' else s
  | EmptyString => EmptyString
  end.

Definition rev_string (s : string) : string :=
  string_of_list_ascii (rev (list_ascii_of_string s)).

Definition rstrip (cs s : string) : string :=
  rev_string (lstrip cs (rev_string s)).

(** [s.strip(cs)] *)
Definition strip (cs s : string) : string := rstrip cs (lstrip cs s).

(** The whitespace characters removed by [s.strip()], restricted to ASCII:
    strings here are ASCII, and Python also strips Unicode spaces. *)
Definition whitespace : string :=
  String " " (String (ascii_of_nat 9) (String (ascii_of_nat 10)
    (String (ascii_of_nat 11) (String (ascii_of_nat 12)
      (String (ascii_of_nat 13) EmptyString))))).

Definition nl : string := String (ascii_of_nat 10) EmptyString.

(** [os.path.join(a, b)] *)
Definition path_join (a b : string) : string :=
  if startswith "/" b then b
  else if String.eqb a "" || endswith "/" a then a ++ b
  else a ++ "/" ++ b.

(** [os.path.dirname(p)] (for paths without a trailing slash run). *)
Definition dirname (p : string) : string :=
  let fix last_slash (s : string) (i : nat) (acc : option nat) :=
    match s with
    | EmptyString => acc
    | String c s' => last_slash s' (S i)
                       (if Ascii.eqb c "/"%char then Some (S i) else acc)
    end in
  match last_slash p 0 None with
  | None => EmptyString
  | Some i => let head := take i p in
              let h := rstrip "/" head in
              if String.eqb h "" then head else h
  end.

(** Decimal rendering of a natural number ([str(int(...))]). *)
Fixpoint digits_fuel (fuel : nat) (n : N) (acc : string) : string :=
  match fuel with
  | O => acc
  | S f =>
      let d := N.modulo n 10 in
      let acc' := String (ascii_of_N (48 + d)) acc in
      let q := N.div n 10 in
      if N.eqb q 0 then acc' else digits_fuel f q acc'
  end.

Definition str_of_N (n : N) : string := digits_fuel 64 n EmptyString.

End Py.

(** ** Node-name mangling (content_cleanup.py) *)
Module NodeName.
Import Py.

(** [mangle_node_name] *)
Definition mangle_node_name (node_name : string) : string :=
  if contains ":" node_name then "_" ++ replace ":" "_" node_name
  else node_name.

(** [unmangle_node_name] *)
Definition unmangle_node_name (mangled_name : string) : string :=
  if startswith "_" mangled_name && contains "_" (drop 1 mangled_name) then
    match split1 "_" (drop 1 mangled_name) with
    | [p0; p1] => p0 ++ ":" ++ p1
    | _ => mangled_name
    end
  else mangled_name.

End NodeName.

(** ** Percent decoding ([urllib.parse.unquote], errors='replace') *)
Module Unquote.
Import Py.
Local Open Scope nat_scope.

Definition is_hex (c : ascii) : bool :=
  let n := nat_of_ascii c in
  ((48 <=? n) && (n <=? 57)) || ((65 <=? n) && (n <=? 70))
  || ((97 <=? n) && (n <=? 102)).

Definition hex_val (c : ascii) : nat :=
  let n := nat_of_ascii c in
  if n <=? 57 then n - 48 else if n <=? 70 then n - 55 else n - 87.

(** One [item] of [bits[1:]] in [unquote_to_bytes]: [_hextobyte[item[:2]]]
    followed by [item[2:]], or ['%' + item] on a [KeyError]. *)
Definition unquote_item (item : string) : string :=
  match item with
  | String h1 (String h2 rest) =>
      if is_hex h1 && is_hex h2
      then String (ascii_of_nat (hex_val h1 * 16 + hex_val h2)) rest
      else ("%" ++ item)%string
  | _ => ("%" ++ item)%string
  end.

(** [unquote_to_bytes] on an ASCII string. *)
Definition unquote_to_bytes (s : string) : string :=
  match s with
  | EmptyString => EmptyString
  | _ =>
      match split "%"%string s with
      | [_] => s
      | b0 :: items => b0 ++ String.concat ""%string (map unquote_item items)
      | [] => s
      end
  end.

(** UTF-8 decoding with errors='replace' followed by re-encoding: every
    maximal ill-formed subpart becomes U+FFFD (EF BF BD). *)
Definition fffd : string :=
  String (ascii_of_nat 239) (String (ascii_of_nat 191)
    (String (ascii_of_nat 189) EmptyString)).

(** A partially read sequence: bytes read, continuation bytes still
    needed, and the range allowed for the next byte. *)
Record pending := { pbuf : string; pneed : nat; plo : nat; phi : nat }.

Definition start_byte (b : ascii) : string * option pending :=
  let n := nat_of_ascii b in
  let one := String b EmptyString in
  if n <? 128 then (one, None)
  else if (194 <=? n) && (n <=? 223) then (""%string, Some (Build_pending one 1 128 191))
  else if n =? 224 then (""%string, Some (Build_pending one 2 160 191))
  else if ((225 <=? n) && (n <=? 236)) || ((238 <=? n) && (n <=? 239))
    then (""%string, Some (Build_pending one 2 128 191))
  else if n =? 237 then (""%string, Some (Build_pending one 2 128 159))
  else if n =? 240 then (""%string, Some (Build_pending one 3 144 191))
  else if (241 <=? n) && (n <=? 243) then (""%string, Some (Build_pending one 3 128 191))
  else if n =? 244 then (""%string, Some (Build_pending one 3 128 143))
  else (fffd, None).

Fixpoint utf8_replace_go (st : option pending) (s : string) : string :=
  match s with
  | EmptyString => match st with None => ""%string | Some _ => fffd end
  | String b s' =>
      match st with
      | None => let '(out, st') := start_byte b in out ++ utf8_replace_go st' s'
      | Some p =>
          let n := nat_of_ascii b in
          if (plo p <=? n) && (n <=? phi p) then
            match pneed p with
            | S O | O => (pbuf p ++ String b ""%string) ++ utf8_replace_go None s'
            | S k => utf8_replace_go
                       (Some (Build_pending (pbuf p ++ String b ""%string) k 128 191)) s'
            end
          else
            let '(out, st') := start_byte b in
            fffd ++ out ++ utf8_replace_go st' s'
      end
  end.

Definition utf8_replace (s : string) : string := utf8_replace_go None s.

(** [_generate_unquoted_parts]: maximal ASCII runs are unquoted and
    decoded, the non-ASCII text between them is kept. *)
Fixpoint unquote_parts (s run : string) : string :=
  match s with
  | EmptyString => utf8_replace (unquote_to_bytes run)
  | String c s' =>
      if nat_of_ascii c <? 128 then unquote_parts s' (run ++ String c ""%string)
      else utf8_replace (unquote_to_bytes run) ++ String c (unquote_parts s' ""%string)
  end.

(** [urllib.parse.unquote] *)
Definition unquote (s : string) : string :=
  if negb (contains "%"%string s) then s else unquote_parts s ""%string.

End Unquote.

(** ** [PackageBuilder.filesystem_to_jcr] *)
Module PathMap.
Import Py.

Definition replacements : list (string * string) :=
  [("_jcr_", "jcr:"); ("_rep_", "rep:"); ("_oak_", "oak:");
   ("_sling_", "sling:"); ("_granite_", "granite:"); ("_cq_", "cq:");
   ("_dam_", "dam:"); ("_exif_", "exif:"); ("_social_", "social:")].

Definition strip_xml_suffix (path : string) : string :=
  if endswith "/.content.xml" path then drop_last 13 path
  else if endswith ".content.xml" path then drop_last 12 path
  else if endswith ".xml" path then drop_last 4 path
  else path.

Definition filesystem_to_jcr (path : string) : string :=
  let path := strip_xml_suffix path in
  let path := fold_left (fun p '(old, new) => replace old new p)
                        replacements path in
  Unquote.unquote path.

End PathMap.

(** ** Directory trees, [os.walk], [create_zip] and [copy_content] *)
Module Tree.
Import Py.

(** A directory tree as [os.walk] sees it (no symbolic links): a regular
    file with its bytes, or a directory with its entries in listing order. *)
Local Set Warnings "-register-all".
Inductive fsnode : Type :=
| FFile (content : string)
| FDir (entries : list (string * fsnode)).

(** An archive member written by [zipfile]. *)
Inductive zip_entry : Type :=
| ZDir (arcname : string)
| ZFile (arcname : string) (content : string).

(** One step of [os.walk] below the staging directory: [arc] is the
    archive name of the directory being walked ("" for the top). The
    directory entries of [dirs] come first, then the [files] except those
    named [pkg.zip], then the walk of each sub-directory. *)
Fixpoint zip_walk (arc : string) (n : fsnode) : list zip_entry :=
  match n with
  | FFile _ => []
  | FDir es =>
      flat_map (fun '(d, sub) =>
                  match sub with
                  | FDir _ => [ZDir (arc ++ d ++ "/")]
                  | FFile _ => []
                  end) es
      ++ flat_map (fun '(f, sub) =>
                     match sub with
                     | FFile c => if String.eqb f "pkg.zip" then []
                                  else [ZFile (arc ++ f) c]
                     | FDir _ => []
                     end) es
      ++ flat_map (fun '(d, sub) =>
                     match sub with
                     | FDir _ => zip_walk (arc ++ d ++ "/") sub
                     | FFile _ => []
                     end) es
  end.

(** Opening [temp_dir/pkg.zip] for writing creates (or truncates) the
    output file at the top of the staging tree before the walk starts; a
    directory of that name makes the open fail. *)
Definition with_output (es : list (string * fsnode))
  : option (list (string * fsnode)) :=
  if existsb (fun '(n, sub) => String.eqb n "pkg.zip"
                                 && match sub with FDir _ => true | _ => false end) es
  then None
  else if existsb (fun '(n, _) => String.eqb n "pkg.zip") es
  then Some (map (fun '(n, sub) => if String.eqb n "pkg.zip" then (n, FFile "")
                                   else (n, sub)) es)
  else Some (es ++ [("pkg.zip", FFile "")])%list.

(** [PackageBuilder.create_zip]: the members written to the archive. *)
Definition create_zip (staging : list (string * fsnode)) : option (list zip_entry) :=
  match with_output staging with
  | None => None
  | Some es => Some (zip_walk "" (FDir es))
  end.

(** [str(Path(root) / name)] for a root that is [str(Path(...))]. *)
Definition pl_join (root name : string) : string :=
  if String.eqb root "." then name
  else if endswith "/" root then root ++ name
  else root ++ "/" ++ name.

(** [should_exclude(path, excludes)] for the path [path] with name [name]. *)
Definition should_exclude (path name : string) (excludes : list string) : bool :=
  existsb (fun pattern => contains pattern path || String.eqb name pattern) excludes.

(** The walk of [copy_content] below the directory [root] (relative path
    [rel] below the source): the files kept, with their path below the
    source, then the kept sub-directories walked; excluded sub-directories
    are removed from [dirs] and never walked. *)
Fixpoint copy_walk (excludes : list string) (root : string) (rel : list string)
         (n : fsnode) : list (list string * string) :=
  match n with
  | FFile _ => []
  | FDir es =>
      flat_map (fun '(f, sub) =>
                  match sub with
                  | FFile c => if should_exclude (pl_join root f) f excludes then []
                               else [((rel ++ [f])%list, c)]
                  | FDir _ => []
                  end) es
      ++ flat_map (fun '(d, sub) =>
                     match sub with
                     | FDir _ => if should_exclude (pl_join root d) d excludes then []
                                 else copy_walk excludes (pl_join root d) (rel ++ [d])%list sub
                     | FFile _ => []
                     end) es
  end.

(** The last component of a path ([Path.name]). *)
Definition basename (path : string) : string :=
  last (split "/" path) "".

(** The copies of the walk of [copy_content], file after file, into a
    destination [dest_path] that is an existing directory when [dest_dir]
    holds. For a file [rel] directly below the source, [dest_file.parent]
    is [dest_path] itself (paths being in the form [str(Path(p))]), so no
    directory is made and [shutil.copy2] raises [FileNotFoundError] when
    [dest_path] does not exist: the copies made so far and the path of the
    failing file are returned. For a deeper file, [mkdir(parents=True)]
    makes its parent, and with it [dest_path]. *)
Fixpoint copy_files (dest_dir : bool) (files : list (list string * string))
  : list (list string * string) * option (list string) :=
  match files with
  | [] => ([], None)
  | (rel, c) :: rest =>
      let at_top := match rel with [_] => true | _ => false end in
      if at_top && negb dest_dir then ([], Some rel)
      else let '(copied, failed) := copy_files true rest in ((rel, c) :: copied, failed)
  end.

(** [PackageBuilder.copy_content]: the files copied, with their path below
    [dest_path], and the path below [dest_path] of the file whose copy
    raised [FileNotFoundError], if one did; [source] is
    [str(Path(source_path))], [n] is what is found there and [dest_dir]
    tells whether [dest_path] is an existing directory. A single source
    file has its parent directory made, which differs from [dest_path]. *)
Definition copy_content (source : string) (n : fsnode) (excludes : list string)
           (dest_dir : bool) : list (list string * string) * option (list string) :=
  match n with
  | FFile c => (if should_exclude source (basename source) excludes then []
                else [([], c)], None)
  | FDir _ => copy_files dest_dir (copy_walk excludes source [] n)
  end.

(** [PackageBuilder.get_excludes] without ignore files. *)
Definition default_excludes : list string :=
  ["__pycache__"; ".git"; ".vscode"; ".DS_Store"; "Thumbs.db"; ".idea"].

End Tree.

(** ** The repo commands (repo.py) *)
Module Repo.
Import Py.

Definition DEFAULT_SERVER : string := "http://localhost:4502".
Definition DEFAULT_CREDENTIALS : string := "admin:admin".
Definition DEFAULT_PACKMGR : string := "/crx/packmgr/service/.json".
Definition DEFAULT_PACKAGE_GROUP : string := "tmp/repo".

(** [RepoConfig] *)
Record RepoConfig := mkRepoConfig {
  server : string;
  credentials : string;
  force : bool;
  quiet : bool;
  packmgr : string;
  package_group : string
}.

(** [RepoConfig()] *)
Definition new_config : RepoConfig :=
  mkRepoConfig DEFAULT_SERVER DEFAULT_CREDENTIALS false false
               DEFAULT_PACKMGR DEFAULT_PACKAGE_GROUP.

Definition set_server (c : RepoConfig) (v : string) : RepoConfig :=
  mkRepoConfig v (credentials c) (force c) (quiet c) (packmgr c) (package_group c).
Definition set_credentials (c : RepoConfig) (v : string) : RepoConfig :=
  mkRepoConfig (server c) v (force c) (quiet c) (packmgr c) (package_group c).
Definition set_force (c : RepoConfig) (v : bool) : RepoConfig :=
  mkRepoConfig (server c) (credentials c) v (quiet c) (packmgr c) (package_group c).
Definition set_quiet (c : RepoConfig) (v : bool) : RepoConfig :=
  mkRepoConfig (server c) (credentials c) (force c) v (packmgr c) (package_group c).

(** Requests sent to the package manager. *)
Inductive request : Type :=
| Upload (url : string)
| Post (url : string)
| Download (url : string).

(** Observable effects of a command. *)
Inductive event : Type :=
| Net (r : request)                    (* HTTP request to the server *)
| Echo (s : string)                    (* click.echo *)
| Styled (color s : string)            (* click.echo(click.style(s, fg=color)) *)
| Confirm (prompt : string) (answer : bool)   (* click.confirm *)
| StageWrite (path : string)           (* write below the temporary directory *)
| LocalRemove (path : string)          (* removal in the checkout *)
| LocalCopy (src dst : string)         (* copy into the checkout *)
| LocalMkdir (path : string)           (* directory created in the checkout *)
| Run (args : list string).            (* external program started *)

(** Exceptions leaving a command. *)
Inductive error : Type :=
| UsageError (msg : string)            (* click.UsageError *)
| ClickException (msg : string)        (* click.ClickException *)
| PyException (msg : string).          (* any other Python exception *)

Definition error_message (e : error) : string :=
  match e with UsageError m | ClickException m | PyException m => m end.

Inductive outcome (A : Type) : Type :=
| Ok (a : A)
| Err (e : error).
Arguments Ok {A} a.
Arguments Err {A} e.

(** A command step: the events it produced and how it ended. *)
Definition M (A : Type) : Type := (list event * outcome A)%type.

Definition ret {A} (a : A) : M A := ([], Ok a).
Definition throw {A} (e : error) : M A := ([], Err e).
Definition emit (e : event) : M unit := ([e], Ok tt).
Definition emit_all (es : list event) : M unit := (es, Ok tt).

Definition bind {A B} (m : M A) (k : A -> M B) : M B :=
  match m with
  | (t, Ok a) => let (t', r) := k a in ((t ++ t')%list, r)
  | (t, Err e) => (t, Err e)
  end.

Notation "'do' x <- m ; k" := (bind m (fun x => k))
  (at level 60, x name, m at next level, right associativity).
Notation "'do' ' p <- m ; k" := (bind m (fun x => match x with p => k end))
  (at level 60, p pattern, m at next level, right associativity).

(** [try: m except Exception as e: raise click.ClickException(prefix + str(e))] *)
Definition try_click {A} (prefix : string) (m : M A) : M A :=
  match m with
  | (t, Err e) => (t, Err (ClickException (prefix ++ error_message e)))
  | r => r
  end.

(** Result of [subprocess.run] for the external [diff] and [git]. *)
Inductive run_result : Type :=
| Completed (stdout : string)
| TimedOut
| NotFound (msg : string).

(** What a command observes of its surroundings. Paths are given in the
    form [str(Path(p))]. *)
Record world := mkWorld {
  cwd : string;                                (* os.getcwd() *)
  resolve : string -> list string;             (* Path(p).resolve() below "/" *)
  abspath : string -> string;                  (* os.path.abspath *)
  exists_path : string -> bool;                (* os.path.exists *)
  is_dir : string -> bool;                     (* os.path.isdir *)
  read_lines : string -> option (list string); (* lines of a readable text file *)
  listdir : string -> list string;             (* os.listdir *)
  tree_at : string -> option Tree.fsnode;      (* what lies at a path *)
  confirm : string -> bool;                    (* answer to click.confirm *)
  now : N;                                     (* int(time.time()) *)
  tmp : string;                                (* tempfile.TemporaryDirectory() *)
  http_ok : request -> bool;                   (* response.ok and success *)
  run : list string -> run_result              (* subprocess.run *)
}.

Section Commands.
Variable w : world.

(** [str(p)] of a resolved absolute path with components [comps]. *)
Definition dir_string (comps : list string) : string := "/" ++ join "/" comps.

(** [RepoConfig._find_up]: the walk stops below the filesystem root. *)
Fixpoint find_up_rev (rcomps : list string) (filename : string) : option string :=
  match rcomps with
  | [] => None
  | _ :: rest =>
      let config_path := path_join (dir_string (rev rcomps)) filename in
      if exists_path w config_path then Some config_path
      else find_up_rev rest filename
  end.

Definition _find_up (start_path filename : string) : option string :=
  find_up_rev (rev (resolve w start_path)) filename.

(** One line of [RepoConfig._parse_config_file]. *)
Definition parse_config_line (c : RepoConfig) (line : string) : RepoConfig :=
  let line := strip whitespace line in
  if negb (String.eqb line "") && negb (startswith "#" line) then
    if contains "=" line then
      match split1 "=" line with
      | [k; v] =>
          let key := strip whitespace k in
          let value := strip whitespace v in
          if String.eqb key "server" then set_server c value
          else if String.eqb key "credentials" then set_credentials c value
          else c
      | _ => c
      end
    else c
  else c.

Definition _parse_config_file (c : RepoConfig) (config_file : string) : M RepoConfig :=
  match read_lines w config_file with
  | Some lines => ret (fold_left parse_config_line lines c)
  | None => do _ <- emit (Echo ("Warning: Could not parse config file " ++ config_file));
            ret c
  end.

(** [RepoConfig.load_config(os.getcwd())] *)
Definition load_config (c : RepoConfig) : M RepoConfig :=
  match _find_up (cwd w) ".repo" with
  | Some config_file => _parse_config_file c config_file
  | None => ret c
  end.

(** A click option given on the command line ([if server:] is false for
    [None] and for the empty string). *)
Definition given (o : option string) : option string :=
  match o with Some v => if String.eqb v "" then None else Some v | None => None end.

(** The configuration prologue of every command: [RepoConfig()], the
    force and quiet flags, [-s] and [-u], then [config.load_config]. *)
Definition setup_config (force_flag quiet_flag : bool)
           (server_opt credentials_opt : option string) : M RepoConfig :=
  let config := new_config in
  let config := set_force config force_flag in
  let config := set_quiet config quiet_flag in
  let config := match given server_opt with Some v => set_server config v | None => config end in
  let config := match given credentials_opt with
                | Some v => set_credentials config v | None => config end in
  load_config config.

Fixpoint index_of (x : string) (xs : list string) : option nat :=
  match xs with
  | [] => None
  | y :: ys => if String.eqb x y then Some 0 else option_map S (index_of x ys)
  end.

(** [validate_jcr_root]: the checkout root and the filter path. *)
Definition validate_jcr_root (path : string) : M (string * string) :=
  let comps := resolve w path in
  let msg := "Not inside a vault checkout with a jcr_root base directory: " ++ path in
  if negb (contains "jcr_root" (dir_string comps)) then throw (UsageError msg)
  else match index_of "jcr_root" comps with
       | None => throw (UsageError msg)
       | Some j =>
           ret (dir_string (firstn (S j) comps),
                if Nat.ltb (S j) (List.length comps)
                then "/" ++ join "/" (skipn (S j) comps) else "/")
       end.

(** The package name derived from the filter path. *)
Definition package_name_of (filter_path : string) : string :=
  let package_name := strip "-" (replace ":" "" (replace "/" "-" filter_path)) in
  if negb (String.eqb package_name "") then "repo" ++ package_name else "repo-root".

Definition package_path_of (c : RepoConfig) (package_name package_version : string)
  : string :=
  package_group c ++ "/" ++ package_name ++ "-" ++ package_version ++ ".zip".

(** [ContentPackageManager(config)]: [username, password =
    config.credentials.split(":", 1)] fails without a colon. *)
Definition new_package_manager (c : RepoConfig) : M unit :=
  if contains ":" (credentials c) then ret tt
  else throw (PyException "not enough values to unpack (expected 2, got 1)").

Definition upload_package (c : RepoConfig) : M unit :=
  let r := Upload (server c ++ packmgr c) in
  do _ <- emit (Net r);
  if http_ok w r then ret tt
  else throw (PyException "Failed to upload package: <response>").

(** [install_package], [build_package] and [delete_package]. *)
Definition post_package (c : RepoConfig) (cmd label package_path : string) : M unit :=
  let r := Post (server c ++ packmgr c ++ "/etc/packages/" ++ package_path
                 ++ "?cmd=" ++ cmd) in
  do _ <- emit (Net r);
  if http_ok w r then ret tt
  else throw (PyException ("Failed to " ++ label ++ " package: <response>")).

Definition download_package (c : RepoConfig) (package_path output_path : string) : M unit :=
  let r := Download (server c ++ "/etc/packages/" ++ package_path) in
  do _ <- emit (Net r);
  if http_ok w r then emit (StageWrite output_path)
  else throw (PyException "Failed to download package: <response>").

(** [PackageBuilder.create_package]: the placeholder and the two vault
    descriptors written below the temporary directory. *)
Definition create_package (temp_dir : string) : M unit :=
  emit_all [StageWrite (path_join temp_dir "jcr_root/.placeholder");
            StageWrite (path_join temp_dir "META-INF/vault/filter.xml");
            StageWrite (path_join temp_dir "META-INF/vault/properties.xml")].

(** [PackageBuilder.create_zip] *)
Definition create_zip_file (temp_dir : string) : M string :=
  let zip_path := path_join temp_dir "pkg.zip" in
  do _ <- emit (StageWrite zip_path);
  ret zip_path.

(** [PackageBuilder.get_excludes(root_path, ...)] *)
Definition get_excludes (root_path : string) : list string :=
  (Tree.default_excludes ++
   flat_map (fun ignore_file =>
               let ignore_path := path_join root_path ignore_file in
               if exists_path w ignore_path then
                 match read_lines w ignore_path with
                 | Some lines => filter (fun l => negb (String.eqb l ""))
                                        (map (strip whitespace) lines)
                 | None => []
                 end
               else [])
            [".gitignore"; ".vltignore"; ".repoignore"])%list.

(** The destination of a file copied to [rel] below [dest]. *)
Definition dest_of (dest : string) (rel : list string) : string :=
  fold_left path_join rel dest.

(** [builder.copy_content(source, dest, excludes)]: the destination files,
    each produced by [mk], then the [FileNotFoundError] of [shutil.copy2]
    if a file directly below the source is copied while [dest] is not an
    existing directory ([dest_dir] false). *)
Definition copy_events (mk : string -> event) (source dest : string)
           (excludes : list string) (dest_dir : bool) : M unit :=
  match tree_at w source with
  | Some n =>
      let '(copied, failed) := Tree.copy_content source n excludes dest_dir in
      do _ <- emit_all (map (fun '(rel, _) => mk (dest_of dest rel)) copied);
      match failed with
      | Some rel => throw (PyException ("[Errno 2] No such file or directory: '"
                                        ++ dest_of dest rel ++ "'"))
      | None => ret tt
      end
  | None => ret tt
  end.

Definition human_filter (filter_path path : string) : string :=
  filter_path ++ (if is_dir w path then "/*" else "").

(** The part of [put] inside [try]. *)
Definition put_transfer (config : RepoConfig) (package_path : string) : M unit :=
  try_click "Upload failed: " (
    do _ <- (if quiet config then ret tt else emit (Echo "Uploading package..."));
    do _ <- upload_package config;
    do _ <- (if quiet config then ret tt else emit (Echo "Installing package..."));
    do _ <- post_package config "install" "install" package_path;
    do _ <- (if quiet config then ret tt else emit (Echo "Cleaning up..."));
    do _ <- post_package config "delete" "delete" package_path;
    if quiet config then ret tt else emit (Echo "✓ Upload completed successfully")).

(** [put] (the listing of the first archive members is not modelled). *)
Definition put (path : string) (server_opt credentials_opt : option string)
           (force_flag quiet_flag : bool) : M unit :=
  do config <- setup_config force_flag quiet_flag server_opt credentials_opt;
  do '(jcr_root_path, filter_path) <- validate_jcr_root path;
  if String.eqb filter_path "/" then
    throw (UsageError "Refusing to work on repository root (would be too slow or overwrite everything)")
  else
  do _ <- (if quiet config then ret tt
           else emit (Echo ("Uploading " ++ human_filter filter_path path ++ " to "
                            ++ server config)));
  let temp_dir := tmp w in
  do _ <- new_package_manager config;
  let package_name := package_name_of filter_path in
  let package_version := str_of_N (now w) in
  do _ <- create_package temp_dir;
  let jcr_root_dest := path_join temp_dir "jcr_root" in
  let filter_dirname := dirname filter_path in
  do _ <- (if String.eqb filter_dirname "/" then ret tt
           else emit (StageWrite (path_join jcr_root_dest (lstrip "/" filter_dirname))));
  let excludes := get_excludes jcr_root_path in
  let dest_path := path_join jcr_root_dest (lstrip "/" filter_path) in
  (* [dest_path] does not exist yet: below the fresh temporary directory
     only [jcr_root] and [jcr_root/<dirname of the filter>] were made *)
  do _ <- (if is_dir w path then copy_events StageWrite path dest_path excludes false
           else
             do _ <- (let parent_dir := dirname dest_path in
                      if negb (String.eqb parent_dir "") && negb (String.eqb parent_dir ".")
                      then emit (StageWrite parent_dir) else ret tt);
             if negb (existsb (fun pattern => contains pattern path) excludes) then
               if exists_path w path then emit (StageWrite dest_path)
               else throw (PyException ("No such file or directory: " ++ path))
             else ret tt);
  do _ <- create_zip_file temp_dir;
  let package_path := package_path_of config package_name package_version in
  if negb (force config) && negb (quiet config) then
    let answer := confirm w "Upload and overwrite on server?" in
    do _ <- emit (Confirm "Upload and overwrite on server?" answer);
    if answer then put_transfer config package_path
    else emit (Echo "Aborted.")
  else put_transfer config package_path.

(** Replacing the local content by the extracted one in [get]. *)
Definition get_install (config : RepoConfig) (jcr_root_path filter_path path
                        extract_dir : string) : M unit :=
  let source_path := path_join (path_join extract_dir "jcr_root") (lstrip "/" filter_path) in
  if exists_path w source_path then
    let excludes := get_excludes jcr_root_path in
    do _ <- (if exists_path w path then
               if is_dir w path then
                 if negb (String.eqb path ".") && negb (String.eqb (abspath w path) (cwd w))
                 then emit (LocalRemove path)
                 else emit_all (map (fun item => LocalRemove (path_join path item))
                                    (listdir w path))
               else emit (LocalRemove path)
             else ret tt);
    let parent_dir := dirname path in
    do _ <- (if negb (String.eqb parent_dir "") && negb (String.eqb parent_dir ".")
             then emit (LocalMkdir parent_dir) else ret tt);
    (* [path] is still a directory only when it was one and only its
       contents were removed *)
    let path_kept := exists_path w path && is_dir w path
                     && negb (negb (String.eqb path ".")
                              && negb (String.eqb (abspath w path) (cwd w))) in
    do _ <- (if is_dir w source_path
             then copy_events (fun d => LocalCopy source_path d) source_path path excludes
                              path_kept
             else emit (LocalCopy source_path path));
    (* the [git status] report that follows is not modelled *)
    if quiet config then ret tt else emit (Echo "✓ Download completed successfully")
  else emit (Echo ("Warning: No content found for " ++ filter_path)).

(** The part of [get] inside [try]. *)
Definition get_transfer (config : RepoConfig) (jcr_root_path filter_path path
                         package_path temp_dir : string) : M unit :=
  try_click "Download failed: " (
    do _ <- (if quiet config then ret tt else emit (Echo "Uploading empty package..."));
    do _ <- upload_package config;
    do _ <- (if quiet config then ret tt else emit (Echo "Building package on server..."));
    do _ <- post_package config "build" "build" package_path;
    let download_path := path_join temp_dir "download.zip" in
    do _ <- (if quiet config then ret tt else emit (Echo "Downloading package..."));
    do _ <- download_package config package_path download_path;
    do _ <- post_package config "delete" "delete" package_path;
    let extract_dir := path_join temp_dir "extracted" in
    do _ <- emit (StageWrite extract_dir);
    if negb (force config) && negb (quiet config) then
      let answer := confirm w "Download and overwrite locally?" in
      do _ <- emit (Confirm "Download and overwrite locally?" answer);
      if answer then get_install config jcr_root_path filter_path path extract_dir
      else emit (Echo "Aborted.")
    else get_install config jcr_root_path filter_path path extract_dir).

(** [get] *)
Definition get (path : string) (server_opt credentials_opt : option string)
           (force_flag quiet_flag : bool) : M unit :=
  do config <- setup_config force_flag quiet_flag server_opt credentials_opt;
  do '(jcr_root_path, filter_path) <- validate_jcr_root path;
  if String.eqb filter_path "/" then
    throw (UsageError "Refusing to work on repository root (would be too slow or overwrite everything)")
  else
  do _ <- (if quiet config then ret tt
           else emit (Echo ("Downloading " ++ human_filter filter_path path ++ " from "
                            ++ server config)));
  let temp_dir := tmp w in
  do _ <- new_package_manager config;
  let package_name := package_name_of filter_path in
  let package_version := str_of_N (now w) in
  do _ <- create_package temp_dir;
  do _ <- create_zip_file temp_dir;
  get_transfer config jcr_root_path filter_path path
               (package_path_of config package_name package_version) temp_dir.

(** [str.split()] without arguments: runs of whitespace separate words. *)
Fixpoint split_ws_aux (s : string) : string * list string :=
  match s with
  | EmptyString => ("", [])
  | String c s' =>
      let '(word, words) := split_ws_aux s' in
      if char_in c whitespace
      then ("", if String.eqb word "" then words else word :: words)
      else (String c word, words)
  end.

Definition split_ws (s : string) : list string :=
  let '(word, words) := split_ws_aux s in
  if String.eqb word "" then words else word :: words.

(** The report of one line of [diff -rq] in [show_status_diff]. *)
Definition status_line (line : string) : M unit :=
  if String.eqb (strip whitespace line) "" then ret tt
  else if startswith "Files " line && contains " differ" line then
    match nth_error (split " " line) 1 with
    | Some p => emit (Echo ("M       " ++ replace "LOCAL" "" (replace "REMOTE" "" p)))
    | None => ret tt
    end
  else if contains "Only in LOCAL" line then
    match nth_error (split "Only in LOCAL" line) 1 with
    | Some m => if contains ": " m then
                  match split1 ": " m with
                  | [dir_part; file_part] => emit (Echo ("A       " ++ dir_part ++ "/" ++ file_part))
                  | _ => ret tt
                  end
                else ret tt
    | None => ret tt
    end
  else if contains "Only in REMOTE" line then
    match nth_error (split "Only in REMOTE" line) 1 with
    | Some m => if contains ": " m then
                  match split1 ": " m with
                  | [dir_part; file_part] => emit (Echo ("D       " ++ dir_part ++ "/" ++ file_part))
                  | _ => ret tt
                  end
                else ret tt
    | None => ret tt
    end
  else if contains "File REMOTE" line && contains "is a regular file while file" line then
    match nth_error (split_ws line) 1 with
    | Some p => emit (Echo ("~ df    " ++ replace "REMOTE" "" p))
    | None => throw (PyException "list index out of range")
    end
  else if contains "File REMOTE" line && contains "is a directory while file" line then
    match nth_error (split_ws line) 1 with
    | Some p => emit (Echo ("~ fd    " ++ replace "REMOTE" "" p))
    | None => throw (PyException "list index out of range")
    end
  else ret tt.

Fixpoint seq_lines (f : string -> M unit) (lines : list string) : M unit :=
  match lines with
  | [] => ret tt
  | l :: ls => do _ <- f l; seq_lines f ls
  end.

(** [show_status_diff(left_dir, right_dir, filter_path)] *)
Definition show_status_diff (left_dir filter_path : string) : M unit :=
  let cmd := ["diff"; "-rq"; path_join left_dir ("REMOTE" ++ filter_path);
              path_join left_dir ("LOCAL" ++ filter_path)] in
  match run w cmd with
  | NotFound msg => emit (Echo ("Diff command not available: " ++ msg))
  | TimedOut => do _ <- emit (Run cmd); emit (Echo "Diff operation timed out")
  | Completed output => do _ <- emit (Run cmd); seq_lines status_line (split nl output)
  end.

(** The colouring of one line in [show_diff]. *)
Definition diff_line (line : string) : event :=
  if startswith "---" line || startswith "+++" line then Styled "white" line
  else if startswith "-" line then Styled "red" line
  else if startswith "+" line then Styled "green" line
  else if startswith "@@" line then Styled "cyan" line
  else Echo line.

(** [show_diff(left_dir, right_dir, filter_path, colorize)] *)
Definition show_diff (left_dir filter_path : string) (colorize : bool) : M unit :=
  let cmd := ["diff"; "-rduNw"; path_join left_dir ("REMOTE" ++ filter_path);
              path_join left_dir ("LOCAL" ++ filter_path)] in
  match run w cmd with
  | NotFound msg => emit (Echo ("Diff command not available: " ++ msg))
  | TimedOut => do _ <- emit (Run cmd); emit (Echo "Diff operation timed out")
  | Completed output =>
      do _ <- emit (Run cmd);
      if colorize && negb (String.eqb output "")
      then emit_all (map diff_line (split nl output))
      else emit (Echo output)
  end.

(** Server snapshot and local snapshot of [status] and [_diff_command]:
    upload, build, download and delete the package, extract it under
    [diffbase], link [REMOTE] to it and copy the local content to [LOCAL]. *)
Definition snapshots (config : RepoConfig) (jcr_root_path filter_path path
                      package_path temp_dir : string) : M string :=
  do _ <- upload_package config;
  do _ <- post_package config "build" "build" package_path;
  let download_path := path_join temp_dir "download.zip" in
  do _ <- download_package config package_path download_path;
  do _ <- post_package config "delete" "delete" package_path;
  let diff_base := path_join temp_dir "diffbase" in
  let extract_dir := path_join diff_base "extracted" in
  do _ <- emit (StageWrite extract_dir);
  do _ <- emit (StageWrite (path_join diff_base "REMOTE"));
  let local_dir := path_join diff_base "LOCAL" in
  do _ <- emit (StageWrite local_dir);
  let excludes := get_excludes jcr_root_path in
  let filter_dirname := dirname filter_path in
  do _ <- (if String.eqb filter_dirname "/" then ret tt
           else emit (StageWrite (path_join local_dir (lstrip "/" filter_dirname))));
  do _ <- (if exists_path w path then
             let dest_path := path_join local_dir (lstrip "/" filter_path) in
             (* only [LOCAL/<dirname of the filter>] was made, not [dest_path] *)
             if is_dir w path then copy_events StageWrite path dest_path excludes false
             else
               do _ <- (let parent_dir := dirname dest_path in
                        if negb (String.eqb parent_dir "") && negb (String.eqb parent_dir ".")
                        then emit (StageWrite parent_dir) else ret tt);
               emit (StageWrite dest_path)
           else ret tt);
  ret diff_base.

(** [status] *)
Definition status (path : string) (server_opt credentials_opt : option string) : M unit :=
  do config <- setup_config false false server_opt credentials_opt;
  do '(jcr_root_path, filter_path) <- validate_jcr_root path;
  if String.eqb filter_path "/" then
    throw (UsageError "Refusing to work on repository root (would be too slow)")
  else
  do _ <- emit (Echo ("Checking status for " ++ filter_path ++ " against " ++ server config));
  let temp_dir := tmp w in
  do _ <- new_package_manager config;
  let package_name := package_name_of filter_path in
  let package_version := str_of_N (now w) in
  do _ <- create_package temp_dir;
  do _ <- create_zip_file temp_dir;
  try_click "Status check failed: " (
    do diff_base <- snapshots config jcr_root_path filter_path path
                      (package_path_of config package_name package_version) temp_dir;
    show_status_diff diff_base filter_path).

(** [st] *)
Definition st (path : string) (server_opt credentials_opt : option string) : M unit :=
  status path server_opt credentials_opt.

(** [_diff_command] *)
Definition _diff_command (path : string) (server_opt credentials_opt : option string)
           (inverse : bool) : M unit :=
  do config <- setup_config false false server_opt credentials_opt;
  do '(jcr_root_path, filter_path) <- validate_jcr_root path;
  if String.eqb filter_path "/" then
    throw (UsageError "Refusing to work on repository root (would be too slow)")
  else
  let diff_type := if inverse then "server -> local" else "local -> server" in
  do _ <- emit (Echo ("Showing differences (" ++ diff_type ++ ") for " ++ filter_path
                      ++ " against " ++ server config));
  let temp_dir := tmp w in
  do _ <- new_package_manager config;
  let package_name := package_name_of filter_path in
  let package_version := str_of_N (now w) in
  do _ <- create_package temp_dir;
  do _ <- create_zip_file temp_dir;
  try_click "Diff failed: " (
    do diff_base <- snapshots config jcr_root_path filter_path path
                      (package_path_of config package_name package_version) temp_dir;
    show_diff diff_base filter_path true).

(** [localdiff], [serverdiff] and [diff] (which invokes [localdiff]). *)
Definition localdiff (path : string) (server_opt credentials_opt : option string) : M unit :=
  _diff_command path server_opt credentials_opt false.
Definition serverdiff (path : string) (server_opt credentials_opt : option string) : M unit :=
  _diff_command path server_opt credentials_opt true.
Definition diff (path : string) (server_opt credentials_opt : option string) : M unit :=
  localdiff path server_opt credentials_opt.

(** [find_or_create_jcr_root] *)
Definition find_or_create_jcr_root (current_dir : string) : M string :=
  let current_path := dir_string (resolve w current_dir) in
  if contains "jcr_root" current_path then
    let jcr_root_path := nth 0 (split "jcr_root" current_path) "" ++ "jcr_root" in
    do _ <- emit (Echo ("Checking out into existing " ++ jcr_root_path));
    ret jcr_root_path
  else
    let jcr_root_candidate := path_join current_path "jcr_root" in
    if exists_path w jcr_root_candidate then
      do _ <- emit (Echo ("Checking out into existing " ++ jcr_root_candidate));
      ret jcr_root_candidate
    else
      do _ <- emit (LocalMkdir jcr_root_candidate);
      do _ <- emit (Echo ("Checking out into new " ++ jcr_root_candidate));
      ret jcr_root_candidate.

(** [checkout] *)
Definition checkout (jcr_path : string) (server_opt credentials_opt : option string)
           (force_flag quiet_flag : bool) : M unit :=
  do config <- setup_config force_flag quiet_flag server_opt credentials_opt;
  do _ <- (if quiet config then ret tt
           else emit (Echo ("Checking out " ++ jcr_path ++ " from " ++ server config)));
  if negb (startswith "/" jcr_path) then throw (UsageError "JCR path must start with /")
  else if String.eqb jcr_path "/" then
    throw (UsageError "Refusing to work on repository root (would be too slow or overwrite everything)")
  else
  do jcr_root_path <- find_or_create_jcr_root (cwd w);
  let local_path := path_join jcr_root_path (lstrip "/" jcr_path) in
  do _ <- emit (LocalMkdir local_path);
  get local_path server_opt credentials_opt force_flag quiet_flag.

End Commands.
End Repo.

(** ** Metadata escaping of the package builder (repo.py) *)
Module Builder.
Import Py.

(** The double quote character. *)
Definition dq : string := String (ascii_of_nat 34) EmptyString.

(** [PackageBuilder.xml_escape]: five [str.replace] calls in this order. *)
Definition xml_escape (text : string) : string :=
  replace "'" "&apos;"
    (replace dq "&quot;"
       (replace ">" "&gt;"
          (replace "<" "&lt;"
             (replace "&" "&amp;" text)))).

End Builder.

(** ** The content cleanup commands (content_cleanup.py) *)
Module Cleanup.
Import Py.

(** [get_default_properties()]: the elements of the returned set. *)
Definition get_default_properties : list string :=
  ["cq:isDelivered"; "cq:lastModified"; "cq:lastModifiedBy"; "cq:lastReplicated";
   "cq:lastReplicated_preview"; "cq:lastReplicated_publish"; "cq:lastReplicated_scene7";
   "cq:lastReplicatedBy"; "cq:lastReplicatedBy_preview"; "cq:lastReplicatedBy_publish";
   "cq:lastReplicatedBy_scene7"; "cq:lastReplicationAction";
   "cq:lastReplicationAction_preview"; "cq:lastReplicationAction_publish";
   "cq:lastReplicationAction_scene7"; "jcr:isCheckedOut"; "jcr:lastModified";
   "jcr:lastModifiedBy"; "jcr:uuid"].

(** Observable effects of the cleanup commands. *)
Inductive cevent : Type :=
| CEcho (s : string)                  (* click.echo *)
| CWrite (path content : string)      (* the file [path] rewritten *)
| CRmtree (path : string).            (* shutil.rmtree *)

(** [determine_properties_to_remove(use_default, properties)]: the lines
    echoed and the elements of the returned set. *)
Definition determine_properties_to_remove (use_default : bool) (properties : list string)
  : list cevent * list string :=
  let no_properties := match properties with [] => true | _ => false end in
  if no_properties && negb use_default then
    ([CEcho "Using default AEM properties for removal"], get_default_properties)
  else
    let '(out1, set1) :=
      if use_default then ([CEcho "Including default AEM properties"], get_default_properties)
      else ([], []) in
    if no_properties then (out1, set1)
    else ((out1 ++ [CEcho ("Including custom properties: " ++ join ", " properties)])%list,
          (set1 ++ properties)%list).

(** *** The property regular expression of [clean_xml_file]

    The pattern is [\s+], the escaped property name, an equals sign, a
    double quote, [[^ ]*] with the double quote as the excluded character,
    and a closing double quote.

    File contents are [str]s held as their UTF-8 bytes. [\s] matches one
    code point among those for which [str.isspace()] holds; each is given
    by its UTF-8 encoding. A match can only start at a byte that begins a
    code point (the encodings below start with an ASCII or a lead byte), so
    scanning byte by byte finds the same matches as scanning code points. *)
Definition byte (n : nat) : string := String (ascii_of_nat n) EmptyString.

Definition space_units : list string :=
  List.app (map byte [9; 10; 11; 12; 13; 28; 29; 30; 31; 32])
  (List.app [byte 194 ++ byte 133; byte 194 ++ byte 160;
             byte 225 ++ byte 154 ++ byte 128]
  (List.app (map (fun k => byte 226 ++ byte 128 ++ byte k)
                 [128; 129; 130; 131; 132; 133; 134; 135; 136; 137; 138; 168; 169; 175])
            [byte 226 ++ byte 129 ++ byte 159; byte 227 ++ byte 128 ++ byte 128])).

(** One [\s] at the start of [s]: the rest of [s]. *)
Definition space_unit (s : string) : option string :=
  match List.find (fun u => startswith u s) space_units with
  | Some u => Some (drop (String.length u) s)
  | None => None
  end.

(** The rests of [s] after one, two, ... code points of [\s]. *)
Fixpoint space_run (fuel : nat) (s : string) : list string :=
  match fuel with
  | O => []
  | S f => match space_unit s with
           | Some r => r :: space_run f r
           | None => []
           end
  end.

(** The part of the pattern after [\s+] at the start of [s]: the rest
    after the match. The excluded-character class stops at the first double
    quote, which the pattern then consumes. *)
Definition tail_match (prop s : string) : option string :=
  let lit := prop ++ "=" ++ Builder.dq in
  if startswith lit s then
    let r := drop (String.length lit) s in
    match Py.find Builder.dq r with
    | Some i => Some (drop (S i) r)
    | None => None
    end
  else None.

Fixpoint first_some {A} (l : list (option A)) : option A :=
  match l with
  | [] => None
  | Some x :: _ => Some x
  | None :: l' => first_some l'
  end.

(** A match starting at the start of [s]: the greedy [\s+] gives back one
    code point at a time until the rest of the pattern matches. *)
Definition match_at (prop s : string) : option string :=
  first_some (map (tail_match prop) (rev (space_run (String.length s) s))).

(** [re.search(pattern, content)] *)
Fixpoint search (prop s : string) : bool :=
  match s with
  | EmptyString => false
  | String _ s' => match match_at prop s with
                   | Some _ => true
                   | None => search prop s'
                   end
  end.

(** [re.sub(pattern, "", content)]: matches are removed from left to
    right, the scan resuming after each match. *)
Fixpoint sub_go (fuel : nat) (prop s : string) : string :=
  match fuel with
  | O => s
  | S f =>
      match s with
      | EmptyString => EmptyString
      | String c s' =>
          match match_at prop s with
          | Some rest => sub_go f prop rest
          | None => String c (sub_go f prop s')
          end
      end
  end.

Definition sub (prop s : string) : string := sub_go (S (String.length s)) prop s.

(** What a cleanup command observes of the file system, besides the tree
    it walks. *)
Record cworld := mkCWorld {
  read_text : string -> option string;   (* open(path, encoding="utf-8").read() *)
  write_ok : string -> bool;             (* open(path, "w") and write succeed *)
  rmtree_ok : string -> bool;            (* shutil.rmtree(path) of an existing folder *)
  set_order : list string -> list string (* iteration order of a set of strings *)
}.

Section Cleanup.
Variable cw : cworld.

(** The loop of [clean_xml_file] over [properties_to_remove], in the
    iteration order of the set. *)
Definition remove_properties (content : string) (properties : list string)
  : string * bool * list cevent :=
  fold_left (fun '(content, modified, out) prop =>
               if search prop content
               then (sub prop content, true, (out ++ [CEcho ("  Removed property: " ++ prop)])%list)
               else (content, modified, out))
            properties (content, false, []).

(** [clean_xml_file(file_path, properties_to_remove, dry_run)] *)
Definition clean_xml_file (file_path : string) (properties : list string) (dry_run : bool)
  : list cevent * bool :=
  match read_text cw file_path with
  | None => ([CEcho ("✗ Error processing file " ++ file_path ++ ": <error>")], false)
  | Some content0 =>
      let '(content, modified, out) := remove_properties content0 properties in
      if modified && negb dry_run then
        if write_ok cw file_path then
          ((out ++ [CWrite file_path content; CEcho ("✓ Cleaned: " ++ file_path)])%list, true)
        else ((out ++ [CEcho ("✗ Error processing file " ++ file_path ++ ": <error>")])%list,
              false)
      else if modified && dry_run then
        ((out ++ [CEcho ("Would clean: " ++ file_path)])%list, true)
      else ((out ++ [CEcho ("- No changes needed: " ++ file_path)])%list, false)
  end.

(** [str(n)] of a Python [int]. *)
Definition str_of_Z (z : Z) : string :=
  if (z <? 0)%Z then "-" ++ str_of_N (Z.to_N (- z)) else str_of_N (Z.to_N z).

Definition dashes : string := "--------------------------------------------------".

(** [process_files_for_properties(content_xml_files, properties_to_remove,
    dry_run)]: the events and [(modified_count, total_count)]. *)
Definition process_files_for_properties (files properties : list string) (dry_run : bool)
  : list cevent * (nat * nat) :=
  let total_count := List.length files in
  let header := [CEcho (nl ++ "Processing " ++ str_of_N (N.of_nat total_count)
                        ++ " files for property removal...");
                 CEcho dashes] in
  let '(out, modified_count) :=
    fold_left (fun '(out, k) file_path =>
                 let '(t, r) := clean_xml_file file_path properties dry_run in
                 ((out ++ t)%list, if r then S k else k))
              files (header, 0) in
  (out, (modified_count, total_count)).

(** [print_summary(modified_count, total_count, dry_run)] *)
Definition print_summary (modified_count total_count : nat) (dry_run : bool) : list cevent :=
  let unchanged := (Z.of_nat total_count - Z.of_nat modified_count)%Z in
  [CEcho dashes; CEcho "Summary:";
   CEcho ("  Total files processed: " ++ str_of_N (N.of_nat total_count))]
  ++ (if dry_run then
        [CEcho ("  Files that would be modified: " ++ str_of_N (N.of_nat modified_count));
         CEcho ("  Files that would remain unchanged: " ++ str_of_Z unchanged)]
      else
        [CEcho ("  Files modified: " ++ str_of_N (N.of_nat modified_count));
         CEcho ("  Files unchanged: " ++ str_of_Z unchanged)]).

(** [find_content_xml_files(base_path)]: the walk below the directory
    [root] ([str(Path(...))] of the directory [os.walk] yields), the files
    of [root] first, then each sub-directory. *)
Fixpoint content_xml_walk (root : string) (n : Tree.fsnode) : list string :=
  match n with
  | Tree.FFile _ => []
  | Tree.FDir es =>
      (flat_map (fun '(f, sub) =>
                   match sub with
                   | Tree.FFile _ => if String.eqb f ".content.xml"
                                     then [Tree.pl_join root f] else []
                   | Tree.FDir _ => []
                   end) es
       ++ flat_map (fun '(d, sub) =>
                      match sub with
                      | Tree.FDir _ => content_xml_walk (Tree.pl_join root d) sub
                      | Tree.FFile _ => []
                      end) es)%list
  end.

Definition find_content_xml_files (base_path : string) (n : Tree.fsnode) : list string :=
  content_xml_walk base_path n.

(** [find_node_folders(base_path, node_name)]: every directory of [root]
    named [node_name] or its mangled form, then the walk of every
    sub-directory (matching ones included). *)
Fixpoint node_folder_walk (node_name mangled_name root : string) (n : Tree.fsnode)
  : list string :=
  match n with
  | Tree.FFile _ => []
  | Tree.FDir es =>
      (flat_map (fun '(d, sub) =>
                   match sub with
                   | Tree.FDir _ => if String.eqb d node_name || String.eqb d mangled_name
                                    then [Tree.pl_join root d] else []
                   | Tree.FFile _ => []
                   end) es
       ++ flat_map (fun '(d, sub) =>
                      match sub with
                      | Tree.FDir _ => node_folder_walk node_name mangled_name
                                                        (Tree.pl_join root d) sub
                      | Tree.FFile _ => []
                      end) es)%list
  end.

Definition find_node_folders (base_path : string) (n : Tree.fsnode) (node_name : string)
  : list string :=
  node_folder_walk node_name (NodeName.mangle_node_name node_name) base_path n.

(** A folder no longer exists once it, or a folder above it, has been
    removed. *)
Definition gone (removed : list string) (p : string) : bool :=
  existsb (fun r => String.eqb p r || startswith (r ++ "/") p) removed.

(** [remove_node_folders(folders, dry_run)]: the events and
    [(removed_count, total_count)]. *)
Definition remove_node_folders (folders : list string) (dry_run : bool)
  : list cevent * (nat * nat) :=
  let total_count := List.length folders in
  if Nat.ltb 0 total_count then
    let header := [CEcho (nl ++ "Processing " ++ str_of_N (N.of_nat total_count)
                          ++ " folders for removal...");
                   CEcho dashes] in
    let '(out, _, removed_count) :=
      fold_left (fun '(out, removed, k) folder_path =>
                   if negb dry_run then
                     if gone removed folder_path || negb (rmtree_ok cw folder_path) then
                       ((out ++ [CEcho ("✗ Error removing folder " ++ folder_path
                                        ++ ": <error>")])%list, removed, k)
                     else ((out ++ [CRmtree folder_path;
                                    CEcho ("✓ Removed folder: " ++ folder_path)])%list,
                           folder_path :: removed, S k)
                   else ((out ++ [CEcho ("Would remove folder: " ++ folder_path)])%list,
                         removed, S k))
                folders (header, [], 0) in
    (out, (removed_count, total_count))
  else ([], (0, 0)).

(** [sorted(s)] of a set of strings (code point order, which is the byte
    order of their UTF-8 encodings). *)
Fixpoint insert_sorted (x : string) (l : list string) : list string :=
  match l with
  | [] => [x]
  | y :: l' => if String.eqb x y then l
               else if String.ltb x y then x :: l else y :: insert_sorted x l'
  end.

Definition sorted_set (l : list string) : list string := fold_right insert_sorted [] l.

(** How a cleanup command ends. *)
Inductive cresult : Type := CDone | CAbort.

(** The [property] command on [base_path], where [tree] is what lies
    there. *)
Definition property (path : string) (tree : option Tree.fsnode)
           (dry_run use_default : bool) (properties : list string)
  : list cevent * cresult :=
  match tree with
  | None => ([CEcho ("✗ Error: Path '" ++ path ++ "' does not exist")], CAbort)
  | Some n =>
      let '(out1, properties_to_remove) := determine_properties_to_remove use_default properties in
      match properties_to_remove with
      | [] => ((out1 ++ [CEcho "✗ Error: No properties specified for removal"])%list, CAbort)
      | _ =>
          let out2 := [CEcho (nl ++ "Properties to remove: "
                              ++ join ", " (sorted_set properties_to_remove));
                       CEcho ("Searching for .content.xml files in: " ++ path)] in
          match find_content_xml_files path n with
          | [] => ((out1 ++ out2 ++ [CEcho "No .content.xml files found"])%list, CDone)
          | content_xml_files =>
              let out3 := (CEcho ("Found " ++ str_of_N (N.of_nat (List.length content_xml_files))
                                  ++ " .content.xml files")
                           :: (if dry_run
                               then [CEcho (nl ++ "--- DRY RUN MODE - No files will be modified ---")]
                               else [])) in
              let '(out4, (modified_count, total_count)) :=
                process_files_for_properties content_xml_files
                  (set_order cw (sorted_set properties_to_remove)) dry_run in
              ((out1 ++ out2 ++ out3 ++ out4
                ++ print_summary modified_count total_count dry_run)%list, CDone)
          end
      end
  end.

End Cleanup.
End Cleanup.

(** ** Concrete surroundings used by the examples and witnesses *)
Module Fixtures.
Import Py Repo.

Definition components (p : string) : list string :=
  filter (fun x => negb (String.eqb x "") && negb (String.eqb x ".")) (split "/" p).

(** A checkout at [/home/u/site/jcr_root]; the working directory is
    [/home/u/site/jcr_root/apps/site]; [repo_file] is the content of
    [/home/u/.repo], if there is one; every folder holds just a sub-folder
    [x] with a file [a.txt] (a path ending in [.txt] is a file); every
    request succeeds and every confirmation is answered [answer]. *)
Definition world0 (repo_file : option (list string)) (answer : bool) : world :=
  let cwd_path := "/home/u/site/jcr_root/apps/site" in
  mkWorld
    cwd_path
    (fun p => if startswith "/" p then components p
              else (components cwd_path ++ components p)%list)
    (fun p => p)
    (fun p => if endswith "/.repo" p
              then String.eqb p "/home/u/.repo"
                   && match repo_file with Some _ => true | None => false end
              else negb (startswith "/home/u/site/jcr_root/." p))
    (fun p => negb (endswith ".txt" p))
    (fun p => if String.eqb p "/home/u/.repo" then repo_file else None)
    (fun _ => ["x"])
    (fun p => if endswith ".txt" p then Some (Tree.FFile "x")
              else Some (Tree.FDir [("x", Tree.FDir [("a.txt", Tree.FFile "x")])]))
    (fun _ => answer)
    1700000000%N
    "/tmp/t"
    (fun _ => true)
    (fun _ => Completed ("--- REMOTE/a.txt" ++ nl ++ "+++ LOCAL/a.txt" ++ nl
                         ++ "@@ -1 +1 @@" ++ nl ++ "-x" ++ nl ++ "+y")).

End Fixtures.

(** ** Statements read from the spec *)
Module SpecSide.

(** The character substitution that [str.replace] performs for a one-character
    pattern. *)
Fixpoint subst_char (a b : ascii) (s : string) : string :=
  match s with
  | EmptyString => EmptyString
  | String c s' => String (if Ascii.eqb c a then b else c) (subst_char a b s')
  end.

(** [file_at n rel c]: the tree [n] has a regular file with bytes [c] at
    the relative path [rel]. *)
Inductive file_at : Tree.fsnode -> list string -> string -> Prop :=
| file_at_here (c : string) : file_at (Tree.FFile c) [] c
| file_at_below (es : list (string * Tree.fsnode)) (x : string) (sub : Tree.fsnode)
    (r : list string) (c : string) :
    In (x, sub) es -> file_at sub r c -> file_at (Tree.FDir es) (x :: r) c.

(** [kept excludes root rel]: no entry on the way from [root] down to
    [root/rel] is excluded, each judged on its full path and its name. *)
Fixpoint kept (excludes : list string) (root : string) (rel : list string) : Prop :=
  match rel with
  | [] => True
  | x :: r => Tree.should_exclude (Tree.pl_join root x) x excludes = false
              /\ kept excludes (Tree.pl_join root x) r
  end.

(** Kinds of command events. *)
Definition is_net (e : Repo.event) : bool :=
  match e with Repo.Net _ => true | _ => false end.
Definition is_local (e : Repo.event) : bool :=
  match e with Repo.LocalRemove _ | Repo.LocalCopy _ _ | Repo.LocalMkdir _ => true
             | _ => false end.
Definition is_confirm (e : Repo.event) : bool :=
  match e with Repo.Confirm _ _ => true | _ => false end.

(** A command rejected with a [click.UsageError] before any request. *)
Definition rejected_with_usage_error (m : Repo.M unit) : Prop :=
  (exists msg, snd m = Repo.Err (Repo.UsageError msg))
  /\ Forall (fun e => is_net e = false) (fst m).


(** An event that neither reaches the server, nor touches the checkout,
    nor asks the user. *)
Definition inert (e : Repo.event) : Prop :=
  is_net e = false /\ is_local e = false /\ is_confirm e = false.

(** A diff command's event, with its "Showing differences (...)" header
    replaced by a fixed text. *)
Definition header_blind (e : Repo.event) : Repo.event :=
  match e with
  | Repo.Echo s =>
      if Py.startswith "Showing differences (" s then Repo.Echo "Showing differences"
      else e
  | _ => e
  end.

(** Two runs that agree on every event but the header and on the outcome. *)
Definition same_but_header {A} (m1 m2 : Repo.M A) : Prop :=
  map header_blind (fst m1) = map header_blind (fst m2) /\ snd m1 = snd m2.

(** The package name as the naming rule describes it: every '/' becomes
    '-', every ':' is removed, leading and trailing '-' are stripped, and
    the result is prefixed with "repo" ("repo-root" when it is empty). *)
Fixpoint remove_char (a : ascii) (s : string) : string :=
  match s with
  | EmptyString => EmptyString
  | String c s' => if Ascii.eqb c a then remove_char a s' else String c (remove_char a s')
  end.

Fixpoint drop_dashes (l : list ascii) : list ascii :=
  match l with
  | c :: l' => if Ascii.eqb c "-" then drop_dashes l' else l
  | [] => []
  end.

Definition trim_dashes (s : string) : string :=
  string_of_list_ascii (rev (drop_dashes (rev (drop_dashes (list_ascii_of_string s))))).

Definition spec_package_name (filter_path : string) : string :=
  let n := trim_dashes (remove_char ":" (subst_char "/" "-" filter_path)) in
  if String.eqb n "" then "repo-root" else "repo" ++ n.

(** [dir_at n rel]: the tree [n] has a directory at the relative path
    [rel]. *)
Inductive dir_at : Tree.fsnode -> list string -> Prop :=
| dir_at_here (es : list (string * Tree.fsnode)) : dir_at (Tree.FDir es) []
| dir_at_below (es : list (string * Tree.fsnode)) (x : string) (sub : Tree.fsnode)
    (r : list string) :
    In (x, sub) es -> dir_at sub r -> dir_at (Tree.FDir es) (x :: r).

(** Each character replaced by a string. *)
Fixpoint map_chars (f : ascii -> string) (s : string) : string :=
  match s with
  | EmptyString => EmptyString
  | String c s' => f c ++ map_chars f s'
  end.

(** XML escaping character by character: the five special characters by
    their entities, every other character kept. *)
Definition esc_char (c : ascii) : string :=
  if Ascii.eqb c "&" then "&amp;"
  else if Ascii.eqb c "<" then "&lt;"
  else if Ascii.eqb c ">" then "&gt;"
  else if Ascii.eqb c (ascii_of_nat 34) then "&quot;"
  else if Ascii.eqb c "'" then "&apos;"
  else String c EmptyString.

Definition escape_each (s : string) : string := map_chars esc_char s.

(** Nothing in the checkout is touched before a confirmation answered yes. *)
Fixpoint confirmed_before_local (t : list Repo.event) : bool :=
  match t with
  | [] => true
  | Repo.Confirm _ true :: _ => true
  | e :: t' => negb (is_local e) && confirmed_before_local t'
  end.

(** A printable ASCII character other than the space. *)
Definition printable (c : ascii) : bool :=
  Nat.leb 33 (nat_of_ascii c) && Nat.leb (nat_of_ascii c) 126.

(** The requests of a trace, in order. *)
Definition requests (t : list Repo.event) : list Repo.request :=
  flat_map (fun e => match e with Repo.Net r => [r] | _ => [] end) t.

End SpecSide.

(** The loop bodies of the cleanup functions, named. *)
Module Loops.
Import Py Cleanup.

(** The body of the loop of [clean_xml_file]. *)
Definition rp_step :=
  fun '(content, modified, out) prop =>
    if search prop content
    then (sub prop content, true, (out ++ [CEcho ("  Removed property: " ++ prop)])%list)
    else (content, modified, out).

Definition is_echo (e : cevent) : Prop := exists s, e = CEcho s.

Section Loops.
Variable cw : cworld.

(** The body of the loop of [remove_node_folders]. *)
Definition rn_step (dry_run : bool) :=
  fun '(out, removed, k) folder_path =>
    if negb dry_run then
      if gone removed folder_path || negb (rmtree_ok cw folder_path) then
        ((out ++ [CEcho ("✗ Error removing folder " ++ folder_path
                         ++ ": <error>")])%list, removed, k)
      else ((out ++ [CRmtree folder_path;
                     CEcho ("✓ Removed folder: " ++ folder_path)])%list,
            folder_path :: removed, S k)
    else ((out ++ [CEcho ("Would remove folder: " ++ folder_path)])%list,
          removed, S k).

Definition rn_header (total_count : nat) : list cevent :=
  [CEcho (nl ++ "Processing " ++ str_of_N (N.of_nat total_count)
          ++ " folders for removal...");
   CEcho dashes].

(** The body of the loop of [process_files_for_properties]. *)
Definition pf_step (props : list string) (dry_run : bool) :=
  fun '(out, k) file_path =>
    let '(t, r) := clean_xml_file cw file_path props dry_run in
    ((out ++ t)%list, if r then S k else k).

End Loops.
End Loops.

(** * Properties *)

(** ** String lemmas *)
Module PyFacts.
Import Py.

Lemma startswith_app (p t : string) : startswith p (p ++ t) = true.
Proof.
  induction p as [|c p IH]; simpl; [reflexivity|].
  rewrite Ascii.eqb_refl, IH; reflexivity.
Qed.

Lemma contains_cons (sep : string) (c : ascii) (s : string) :
  contains sep (String c s) =
  startswith sep (String c s) || contains sep s.
Proof.
  unfold contains; simpl.
  destruct (startswith sep (String c s)); [reflexivity|].
  destruct (find sep s); reflexivity.
Qed.

Lemma contains_empty (sep : string) :
  contains sep EmptyString = startswith sep EmptyString.
Proof. unfold contains; simpl; destruct (startswith sep ""); reflexivity. Qed.

Lemma replace_go_absent (old new s : string) :
  contains old s = false -> replace_go old new s 0 = s.
Proof.
  induction s as [|c s IH]; intro H; [reflexivity|].
  rewrite contains_cons in H; apply orb_false_iff in H as [H1 H2].
  simpl; rewrite H1, IH by exact H2; reflexivity.
Qed.

Lemma replace_absent (old new s : string) :
  contains old s = false -> replace old new s = s.
Proof. apply replace_go_absent. Qed.

Lemma startswith_char (a c : ascii) (s : string) :
  startswith (String a EmptyString) (String c s) = Ascii.eqb a c.
Proof. simpl; apply andb_true_r. Qed.

Lemma replace_char (a b : ascii) (s : string) :
  replace (String a EmptyString) (String b EmptyString) s
  = SpecSide.subst_char a b s.
Proof.
  unfold replace; induction s as [|c s IH]; [reflexivity|].
  simpl; rewrite andb_true_r, Ascii.eqb_sym.
  destruct (Ascii.eqb c a); simpl; rewrite IH; reflexivity.
Qed.

Lemma subst_char_absent (a b : ascii) (s : string) :
  contains (String a EmptyString) s = false -> SpecSide.subst_char a b s = s.
Proof.
  induction s as [|c s IH]; intro H; [reflexivity|].
  rewrite contains_cons, startswith_char in H.
  apply orb_false_iff in H as [H1 H2].
  simpl; rewrite Ascii.eqb_sym, H1, IH by exact H2; reflexivity.
Qed.

Lemma subst_char_app (a b : ascii) (s t : string) :
  SpecSide.subst_char a b (s ++ t)
  = SpecSide.subst_char a b s ++ SpecSide.subst_char a b t.
Proof. induction s as [|c s IH]; simpl; [reflexivity| rewrite IH; reflexivity]. Qed.

Lemma find_char_app (a : ascii) (p q : string) :
  contains (String a EmptyString) p = false ->
  find (String a EmptyString) (p ++ String a q) = Some (String.length p).
Proof.
  induction p as [|c p IH]; intro H.
  - simpl; rewrite Ascii.eqb_refl; reflexivity.
  - rewrite contains_cons, startswith_char in H.
    apply orb_false_iff in H as [H1 H2].
    change (String c p ++ String a q) with (String c (p ++ String a q)).
    simpl find at 1; rewrite H1, Bool.andb_false_l.
    rewrite IH by exact H2; reflexivity.
Qed.

Lemma take_app (p q : string) : take (String.length p) (p ++ q) = p.
Proof. induction p as [|c p IH]; simpl; [reflexivity| rewrite IH; reflexivity]. Qed.

Lemma drop_app (p q : string) : drop (String.length p) (p ++ q) = q.
Proof. induction p as [|c p IH]; simpl; [reflexivity| exact IH]. Qed.

Lemma contains_app_r (sep p q : string) :
  contains sep q = true -> contains sep (p ++ q) = true.
Proof.
  induction p as [|c p IH]; intro H; [exact H|].
  simpl; rewrite contains_cons, IH by exact H; apply orb_true_r.
Qed.

Lemma contains_self_app (a : ascii) (q : string) :
  contains (String a EmptyString) (String a q) = true.
Proof. rewrite contains_cons, startswith_char, Ascii.eqb_refl; reflexivity. Qed.

End PyFacts.

Module PathFacts.
Import Py PyFacts.

Lemma length_app (s t : string) :
  String.length (s ++ t) = String.length s + String.length t.
Proof. induction s as [|c s IH]; simpl; [reflexivity| rewrite IH; reflexivity]. Qed.

Lemma app_assoc_str (s t u : string) : (s ++ t) ++ u = s ++ (t ++ u).
Proof. induction s as [|c s IH]; simpl; [reflexivity| rewrite IH; reflexivity]. Qed.

Lemma take_drop (n : nat) (s : string) : take n s ++ drop n s = s.
Proof.
  revert s; induction n as [|n IH]; intros [|c s]; simpl; try reflexivity.
  rewrite IH; reflexivity.
Qed.

Lemma endswith_spec (p s : string) :
  endswith p s = true <-> exists t, s = t ++ p.
Proof.
  unfold endswith; split.
  - intro H; apply andb_true_iff in H as [_ H2].
    apply String.eqb_eq in H2.
    exists (take (String.length s - String.length p) s).
    rewrite <- H2 at 2; symmetry; apply take_drop.
  - intros [t ->]; rewrite length_app.
    replace (String.length t + String.length p - String.length p)
      with (String.length t) by lia.
    rewrite drop_app, String.eqb_refl, andb_true_r.
    apply Nat.leb_le; lia.
Qed.

Lemma endswith_suffix (a b s : string) :
  endswith (a ++ b) s = true -> endswith b s = true.
Proof.
  rewrite !endswith_spec; intros [t ->].
  exists (t ++ a); symmetry; apply app_assoc_str.
Qed.

Lemma strip_xml_suffix_id (path : string) :
  endswith ".xml" path = false -> PathMap.strip_xml_suffix path = path.
Proof.
  intro H; unfold PathMap.strip_xml_suffix.
  destruct (endswith "/.content.xml" path) eqn:E1.
  { apply (endswith_suffix "/.content") in E1; congruence. }
  destruct (endswith ".content.xml" path) eqn:E2.
  { apply (endswith_suffix ".content") in E2; congruence. }
  rewrite H; reflexivity.
Qed.

Lemma replacements_id (reps : list (string * string)) (path : string) :
  Forall (fun r => contains (fst r) path = false) reps ->
  fold_left (fun p '(old, new) => replace old new p) reps path = path.
Proof.
  induction reps as [|[old new] reps IH]; intro H; [reflexivity|].
  inversion H as [|? ? Hh Ht]; subst; simpl in Hh.
  simpl; rewrite replace_absent by exact Hh; apply IH; exact Ht.
Qed.

End PathFacts.

(** ** Claims on the path mapper *)

(** C8 (counterexample): a name with two colons has both colons replaced,
    not only the first one. *)
Lemma mangle_node_name_two_colons :
  NodeName.mangle_node_name "a:b:c" = "_a_b_c"
  /\ NodeName.mangle_node_name "a:b:c" <> "_a_b:c".
Proof. split; [reflexivity| discriminate]. Qed.

(** C8 (amended): a name containing a colon is mangled by replacing every
    colon with an underscore and prefixing an underscore
    ([jcr:content] becomes [_jcr_content]); a name without a colon is
    returned unchanged. *)
Theorem mangle_node_name_spec (name : string) :
  NodeName.mangle_node_name name
  = (if Py.contains ":" name
     then "_" ++ SpecSide.subst_char ":" "_" name
     else name)
  /\ NodeName.mangle_node_name "jcr:content" = "_jcr_content".
Proof.
  split; [|reflexivity].
  unfold NodeName.mangle_node_name.
  destruct (Py.contains ":" name); [|reflexivity].
  rewrite PyFacts.replace_char; reflexivity.
Qed.

(** C2 (counterexample): the one-colon name [a_b:c] does not survive the
    round trip: it comes back as [a:b_c]. *)
Lemma unmangle_mangle_underscore_prefix :
  NodeName.unmangle_node_name (NodeName.mangle_node_name "a_b:c") = "a:b_c"
  /\ NodeName.unmangle_node_name (NodeName.mangle_node_name "a_b:c") <> "a_b:c".
Proof. split; [reflexivity| discriminate]. Qed.

(** C2 (amended): for a name [p:q] with exactly one colon whose namespace
    part [p] contains no underscore, unmangling the mangled name gives back
    [p:q]. *)
Theorem unmangle_mangle_roundtrip (p q : string) :
  Py.contains ":" p = false -> Py.contains ":" q = false ->
  Py.contains "_" p = false ->
  NodeName.unmangle_node_name (NodeName.mangle_node_name (p ++ ":" ++ q))
  = p ++ ":" ++ q.
Proof.
  intros Hp Hq Hu.
  assert (Hm : NodeName.mangle_node_name (p ++ ":" ++ q) = "_" ++ p ++ "_" ++ q).
  { unfold NodeName.mangle_node_name.
    rewrite PyFacts.contains_app_r by apply PyFacts.contains_self_app.
    rewrite PyFacts.replace_char, PyFacts.subst_char_app.
    simpl (SpecSide.subst_char ":" "_" (":" ++ q)).
    rewrite !PyFacts.subst_char_absent by assumption; reflexivity. }
  rewrite Hm; unfold NodeName.unmangle_node_name.
  change (Py.drop 1 ("_" ++ p ++ "_" ++ q)) with (p ++ "_" ++ q).
  simpl (Py.startswith "_" _).
  rewrite PyFacts.contains_app_r by apply PyFacts.contains_self_app.
  unfold Py.split1; change ("_" ++ q) with (String "_" q).
  rewrite PyFacts.find_char_app by exact Hu.
  rewrite PyFacts.take_app.
  replace (String.length p + String.length "_") with (S (String.length p))
    by (simpl; lia).
  assert (Hd : forall p0 : string, Py.drop (S (String.length p0)) (p0 ++ String "_" q) = q).
  { induction p0 as [|c p0 IH]; [reflexivity| exact IH]. }
  rewrite Hd; reflexivity.
Qed.

Lemma unmangle_mangle_roundtrip_witness :
  Py.contains ":" "jcr" = false /\ Py.contains ":" "content" = false
  /\ Py.contains "_" "jcr" = false
  /\ NodeName.unmangle_node_name (NodeName.mangle_node_name ("jcr" ++ ":" ++ "content"))
     = "jcr" ++ ":" ++ "content".
Proof.
  refine (conj eq_refl (conj eq_refl (conj eq_refl _))).
  apply unmangle_mangle_roundtrip; reflexivity.
Defined.

(** C9 (counterexample): [a.xml.xml] is mapped to [a.xml], and applying the
    mapping again strips a second suffix, so the mapping is not idempotent
    on its own outputs. *)
Lemma filesystem_to_jcr_not_idempotent :
  PathMap.filesystem_to_jcr "a.xml.xml" = "a.xml"
  /\ PathMap.filesystem_to_jcr (PathMap.filesystem_to_jcr "a.xml.xml") = "a"
  /\ PathMap.filesystem_to_jcr (PathMap.filesystem_to_jcr "a.xml.xml")
     <> PathMap.filesystem_to_jcr "a.xml.xml".
Proof. vm_compute; split; [reflexivity| split; [reflexivity| discriminate]]. Qed.

(** C9 (amended): the mapping sends [_jcr_content] to [jcr:content],
    [/apps/_cq_dialog] to [/apps/cq:dialog] and [/apps/project/.content.xml]
    to [/apps/project]; it leaves unchanged (and is therefore idempotent on)
    every path that does not end in [.xml], contains no [%] and contains
    none of the namespace tokens [_jcr_], [_rep_], ..., [_social_]. *)
Theorem filesystem_to_jcr_examples_and_fixpoints :
  PathMap.filesystem_to_jcr "_jcr_content" = "jcr:content"
  /\ PathMap.filesystem_to_jcr "/apps/_cq_dialog" = "/apps/cq:dialog"
  /\ PathMap.filesystem_to_jcr "/apps/project/.content.xml" = "/apps/project"
  /\ (forall path : string,
        Py.endswith ".xml" path = false ->
        Py.contains "%" path = false ->
        Forall (fun r => Py.contains (fst r) path = false) PathMap.replacements ->
        PathMap.filesystem_to_jcr path = path
        /\ PathMap.filesystem_to_jcr (PathMap.filesystem_to_jcr path)
           = PathMap.filesystem_to_jcr path).
Proof.
  split; [vm_compute; reflexivity|].
  split; [vm_compute; reflexivity|].
  split; [vm_compute; reflexivity|].
  intros path Hx Hp Hr.
  assert (Hid : PathMap.filesystem_to_jcr path = path).
  { unfold PathMap.filesystem_to_jcr.
    rewrite PathFacts.strip_xml_suffix_id by exact Hx.
    rewrite PathFacts.replacements_id by exact Hr.
    unfold Unquote.unquote; rewrite Hp; reflexivity. }
  rewrite !Hid; split; reflexivity.
Qed.

Lemma filesystem_to_jcr_examples_and_fixpoints_witness :
  PathMap.filesystem_to_jcr "/apps/jcr:content" = "/apps/jcr:content"
  /\ PathMap.filesystem_to_jcr (PathMap.filesystem_to_jcr "/apps/jcr:content")
     = PathMap.filesystem_to_jcr "/apps/jcr:content".
Proof.
  destruct filesystem_to_jcr_examples_and_fixpoints as (_ & _ & _ & H).
  apply (H "/apps/jcr:content"); [reflexivity| reflexivity| repeat constructor].
Defined.
(** ** Claims on package building *)
Module TreeFacts.
Import Tree SpecSide.

(** Induction on trees, with a hypothesis for every entry of a directory. *)
Definition fsnode_ind2 (P : fsnode -> Prop)
  (Hf : forall c, P (FFile c))
  (Hd : forall es, Forall (fun e => P (snd e)) es -> P (FDir es)) :
  forall n, P n :=
  fix F n :=
    match n with
    | FFile c => Hf c
    | FDir es =>
        Hd es ((fix G (es : list (string * fsnode)) : Forall (fun e => P (snd e)) es :=
                  match es with
                  | [] => Forall_nil _
                  | (x, sub) :: es' => @Forall_cons _ (fun e => P (snd e)) (x, sub) es' (F sub) (G es')
                  end) es)
    end.

Lemma file_at_dir_nonempty (es : list (string * fsnode)) (c : string) :
  ~ file_at (FDir es) [] c.
Proof. intro H; inversion H. Qed.

Lemma copy_walk_spec (ex : list string) (n : fsnode) :
  forall root pre rel c,
  In (rel, c) (copy_walk ex root pre n) <->
  exists r, rel = (pre ++ r)%list /\ r <> [] /\ file_at n r c /\ kept ex root r.
Proof.
  induction n as [c0 | es IH] using fsnode_ind2; intros root pre rel c.
  - simpl; split; [tauto|].
    intros (r & _ & Hr & Hf & _); inversion Hf; subst; congruence.
  - rewrite Forall_forall in IH.
    simpl copy_walk; rewrite in_app_iff, !in_flat_map; split.
    + intros [((f, sub) & Hin & H) | ((d, sub) & Hin & H)].
      * destruct sub as [c' | es']; [|contradiction].
        destruct (should_exclude (pl_join root f) f ex) eqn:E; [contradiction|].
        destruct H as [H|[]]; injection H as <- <-.
        exists [f]; split; [reflexivity|]; split; [discriminate|]; split.
        { econstructor; [exact Hin| constructor]. }
        simpl; split; [exact E| exact I].
      * destruct sub as [c' | es']; [contradiction|].
        destruct (should_exclude (pl_join root d) d ex) eqn:E; [contradiction|].
        apply (IH (d, FDir es') Hin) in H as (r & -> & Hr & Hf & Hk).
        exists (d :: r); split; [rewrite <- app_assoc; reflexivity|].
        split; [discriminate|]; split.
        { econstructor; [exact Hin| exact Hf]. }
        simpl; split; [exact E| exact Hk].
    + intros (r & -> & Hr & Hf & Hk).
      inversion Hf as [| es0 x sub r' c' Hin Hsub]; subst.
      destruct Hk as [E Hk].
      destruct sub as [c'' | es'].
      * left; exists (x, FFile c''); split; [exact Hin|].
        inversion Hsub; subst; rewrite E; left; reflexivity.
      * right; exists (x, FDir es'); split; [exact Hin|].
        rewrite E; apply (IH (x, FDir es') Hin).
        exists r'; split; [rewrite <- app_assoc; reflexivity|].
        split; [intro; subst; apply (file_at_dir_nonempty es' c); exact Hsub|].
        split; [exact Hsub| exact Hk].
Qed.

Lemma copy_walk_len (ex : list string) (n : fsnode) (root : string) (pre rel : list string)
      (c : string) :
  In (rel, c) (copy_walk ex root pre n) -> S (length pre) <= length rel.
Proof.
  rewrite copy_walk_spec; intros (r & -> & Hr & _).
  rewrite length_app; destruct r; [congruence|simpl; lia].
Qed.

(** When a file directly below the source is copied, the walk copies such
    a file first. *)
Lemma copy_walk_head_top (ex : list string) (root : string) (es : list (string * fsnode))
      (f c : string) :
  In ([f], c) (copy_walk ex root [] (FDir es)) ->
  exists f' c' l, copy_walk ex root [] (FDir es) = ([f'], c') :: l.
Proof.
  intro H.
  assert (HB : forall x, In x (flat_map (fun '(d, sub) =>
                     match sub with
                     | FDir _ => if should_exclude (pl_join root d) d ex then []
                                 else copy_walk ex (pl_join root d) ([] ++ [d])%list sub
                     | FFile _ => []
                     end) es) -> 2 <= length (fst x)).
  { intros [rel c'] Hx; apply in_flat_map in Hx as ((d, sub) & _ & Hx).
    destruct sub; [contradiction|].
    destruct (should_exclude _ _ _); [contradiction|].
    apply copy_walk_len in Hx; exact Hx. }
  simpl copy_walk in *.
  remember (flat_map _ es) as A eqn:EA in H |- *.
  destruct A as [|[rel c'] A].
  - exfalso; apply HB in H; simpl in H; lia.
  - pose proof (in_eq (rel, c') A) as Hx; rewrite EA in Hx.
    apply in_flat_map in Hx as ((f', sub) & _ & Hx).
    destruct sub; [|contradiction].
    destruct (should_exclude _ _ _); [contradiction|].
    destruct Hx as [Hx|[]]; injection Hx as <- <-.
    do 3 eexists; reflexivity.
Qed.

Lemma copy_files_true (l : list (list string * string)) : copy_files true l = (l, None).
Proof.
  induction l as [|[rel c] l IH]; [reflexivity|].
  simpl; rewrite andb_false_r, IH; reflexivity.
Qed.

Lemma copy_files_false (l : list (list string * string)) :
  copy_files false l = match l with
                       | ([f], _) :: _ => ([], Some [f])
                       | _ => (l, None)
                       end.
Proof.
  destruct l as [|[[|f [|g r]] c] l]; simpl; rewrite ?copy_files_true; reflexivity.
Qed.

End TreeFacts.

(** C5 (failing input): a content file named [pkg.zip] anywhere in the
    staging tree is left out of the archive, although it is not the
    archive's own output file ([temp_dir/pkg.zip]). *)
Theorem create_zip_drops_nested_pkg_zip :
  exists entries,
    Tree.create_zip
      [("META-INF", Tree.FDir [("vault", Tree.FDir [("filter.xml", Tree.FFile "f")])]);
       ("jcr_root", Tree.FDir [("apps", Tree.FDir [("pkg.zip", Tree.FFile "z")])])]
    = Some entries
    /\ In (Tree.ZDir "jcr_root/apps/") entries
    /\ ~ In (Tree.ZFile "jcr_root/apps/pkg.zip" "z") entries.
Proof.
  eexists; split; [vm_compute; reflexivity|].
  split; [simpl; tauto|].
  simpl; intros H; repeat destruct H as [H|H]; try discriminate; exact H.
Qed.




(** ** Command traces *)
Module RepoFacts.
Import Py Repo SpecSide.

Lemma Forall_bind {A B} (P : event -> Prop) (m : M A) (k : A -> M B) :
  Forall P (fst m) -> (forall a, Forall P (fst (k a))) ->
  Forall P (fst (bind m k)).
Proof.
  destruct m as [t [a|e]]; simpl; intros Hm Hk; [|exact Hm].
  specialize (Hk a); destruct (k a) as [t' r]; simpl in *.
  apply Forall_app; split; assumption.
Qed.

Lemma Forall_ret {A} (P : event -> Prop) (a : A) : Forall P (fst (ret a)).
Proof. constructor. Qed.

Lemma Forall_throw {A} (P : event -> Prop) (e : error) : Forall P (fst (@throw A e)).
Proof. constructor. Qed.

Lemma Forall_emit (P : event -> Prop) (e : event) : P e -> Forall P (fst (emit e)).
Proof. intro; repeat constructor; assumption. Qed.

Lemma Forall_try_click {A} (P : event -> Prop) (pre : string) (m : M A) :
  Forall P (fst m) -> Forall P (fst (try_click pre m)).
Proof. destruct m as [t [a|e]]; simpl; auto. Qed.

Lemma setup_config_spec (w : world) (f q : bool) (so co : option string) :
  exists t c, setup_config w f q so co = (t, Ok c)
    /\ Forall (fun e => exists s, e = Echo s) t
    /\ force c = f /\ quiet c = q
    /\ packmgr c = DEFAULT_PACKMGR /\ package_group c = DEFAULT_PACKAGE_GROUP.
Proof.
  unfold setup_config, load_config.
  set (c0 := match given co with Some v => set_credentials _ v | None => _ end).
  assert (H0 : force c0 = f /\ quiet c0 = q /\ packmgr c0 = DEFAULT_PACKMGR
               /\ package_group c0 = DEFAULT_PACKAGE_GROUP).
  { subst c0; destruct (given co), (given so); simpl; auto. }
  assert (Hfold : forall lines c, force (fold_left parse_config_line lines c) = force c
             /\ quiet (fold_left parse_config_line lines c) = quiet c
             /\ packmgr (fold_left parse_config_line lines c) = packmgr c
             /\ package_group (fold_left parse_config_line lines c) = package_group c).
  { induction lines as [|l lines IH]; intro c; [simpl; auto|].
    simpl; destruct (IH (parse_config_line c l)) as (-> & -> & -> & ->).
    unfold parse_config_line.
    destruct (_ && _); [|auto].
    destruct (contains "=" _); [|auto].
    destruct (split1 _ _) as [|k [|v [|]]]; auto.
    destruct (String.eqb _ "server"); [simpl; auto|].
    destruct (String.eqb _ "credentials"); simpl; auto. }
  destruct (_find_up w (cwd w) ".repo") as [file|].
  - unfold _parse_config_file; destruct (read_lines w file) as [lines|].
    + exists [], (fold_left parse_config_line lines c0); split; [reflexivity|].
      split; [constructor|]; destruct (Hfold lines c0) as (-> & -> & -> & ->); exact H0.
    + eexists; exists c0; split; [reflexivity|].
      split; [repeat constructor; eexists; reflexivity| exact H0].
  - exists [], c0; split; [reflexivity|]; split; [constructor| exact H0].
Qed.

Lemma validate_jcr_root_trace (w : world) (path : string) :
  fst (validate_jcr_root w path) = [].
Proof.
  unfold validate_jcr_root.
  destruct (negb _); [reflexivity|].
  destruct (index_of _ _); reflexivity.
Qed.

Lemma Forall_bind_ok {A B} (P : event -> Prop) (m : M A) (k : A -> M B) :
  Forall P (fst m) -> (forall a, snd m = Ok a -> Forall P (fst (k a))) ->
  Forall P (fst (bind m k)).
Proof.
  destruct m as [t [a|e]]; simpl; intros Hm Hk; [|exact Hm].
  specialize (Hk a eq_refl); destruct (k a) as [t' r]; simpl in *.
  apply Forall_app; split; assumption.
Qed.




Lemma inert_new_package_manager (c : RepoConfig) :
  Forall inert (fst (new_package_manager c)).
Proof. unfold new_package_manager; destruct (contains _ _); constructor. Qed.

Lemma inert_create_package (temp_dir : string) :
  Forall inert (fst (create_package temp_dir)).
Proof. repeat constructor. Qed.

Lemma inert_create_zip_file (temp_dir : string) :
  Forall inert (fst (create_zip_file temp_dir)).
Proof. repeat constructor. Qed.

Lemma inert_copy_events (w : world) (source dest : string) (excludes : list string)
      (dest_dir : bool) :
  Forall inert (fst (copy_events w StageWrite source dest excludes dest_dir)).
Proof.
  unfold copy_events; destruct (tree_at w source) as [n|]; [|constructor].
  destruct (Tree.copy_content source n excludes dest_dir) as [copied failed].
  unfold bind, emit_all; destruct failed; simpl; rewrite app_nil_r;
    apply Forall_forall; intros e He; apply in_map_iff in He as ([rel c] & <- & _);
    repeat constructor.
Qed.

Lemma inert_stage (p : string) : Forall inert (fst (emit (StageWrite p))).
Proof. repeat constructor. Qed.

Lemma inert_echo (s : string) : Forall inert (fst (emit (Echo s))).
Proof. repeat constructor. Qed.

Lemma inert_ret {A} (a : A) : Forall inert (fst (ret a)).
Proof. constructor. Qed.

Lemma inert_throw {A} (e : error) : Forall inert (fst (@throw A e)).
Proof. constructor. Qed.

Lemma inert_bind {A B} (m : M A) (k : A -> M B) :
  Forall inert (fst m) -> (forall a, Forall inert (fst (k a))) ->
  Forall inert (fst (bind m k)).
Proof. apply Forall_bind. Qed.

Lemma inert_setup (w : world) (f q : bool) (so co : option string) :
  Forall inert (fst (setup_config w f q so co)).
Proof.
  destruct (setup_config_spec w f q so co) as (t & c & -> & Ht & _); simpl.
  eapply Forall_impl; [|exact Ht]; intros e [s ->]; repeat split.
Qed.

Lemma inert_validate (w : world) (path : string) :
  Forall inert (fst (validate_jcr_root w path)).
Proof. rewrite validate_jcr_root_trace; constructor. Qed.

(** Proves that a command fragment without requests, checkout writes or
    prompts is inert. *)
Ltac solve_inert :=
  repeat (cbv zeta;
    first
      [ apply inert_new_package_manager | apply inert_create_package
      | apply inert_create_zip_file | apply inert_copy_events | apply inert_stage
      | apply inert_echo | apply inert_ret | apply inert_throw
      | apply inert_bind; [| intros ?]
      | match goal with |- context [if ?b then _ else _] => destruct b end ]).



End RepoFacts.

Module RejectRoot.
Import Py Repo SpecSide RepoFacts.

Lemma rejected_after_setup (w : world) (f q : bool) (so co : option string)
  (path jr msg : string)
  (rest : RepoConfig -> string -> string -> M unit) :
  snd (validate_jcr_root w path) = Ok (jr, "/") ->
  rejected_with_usage_error
    (bind (setup_config w f q so co) (fun config =>
       bind (validate_jcr_root w path) (fun x =>
         match x with
         | (jcr_root_path, filter_path) =>
             if String.eqb filter_path "/" then throw (UsageError msg)
             else rest config jcr_root_path filter_path
         end))).
Proof.
  intro Hv.
  destruct (setup_config_spec w f q so co) as (t & c & Hs & Ht & _).
  assert (Hv' : validate_jcr_root w path = ([], Ok (jr, "/"))).
  { rewrite <- Hv, <- (validate_jcr_root_trace w path); destruct (validate_jcr_root w path); reflexivity. }
  rewrite Hs, Hv'; simpl.
  rewrite app_nil_r; split; [eexists; reflexivity|].
  eapply Forall_impl; [|exact Ht]; intros e [s ->]; reflexivity.
Qed.

End RejectRoot.

(** C3: every command whose filter path resolves to the repository root
    [/] (put, get, status and its alias st, diff, localdiff, serverdiff,
    and checkout of [/]) ends in a [click.UsageError] and sends no request
    to the server. *)
Theorem root_filter_rejected_by_all_commands :
  (forall (w : Repo.world) (path : string) (so co : option string) (f q : bool)
          (jr : string),
     snd (Repo.validate_jcr_root w path) = Repo.Ok (jr, "/") ->
     SpecSide.rejected_with_usage_error (Repo.put w path so co f q)
     /\ SpecSide.rejected_with_usage_error (Repo.get w path so co f q)
     /\ SpecSide.rejected_with_usage_error (Repo.status w path so co)
     /\ SpecSide.rejected_with_usage_error (Repo.st w path so co)
     /\ SpecSide.rejected_with_usage_error (Repo.diff w path so co)
     /\ SpecSide.rejected_with_usage_error (Repo.localdiff w path so co)
     /\ SpecSide.rejected_with_usage_error (Repo.serverdiff w path so co))
  /\ (forall (w : Repo.world) (so co : option string) (f q : bool),
        SpecSide.rejected_with_usage_error (Repo.checkout w "/" so co f q)).
Proof.
  split.
  - intros w path so co f q jr Hv.
    refine (conj _ (conj _ (conj _ (conj _ (conj _ (conj _ _))))));
      [ unfold Repo.put | unfold Repo.get | unfold Repo.status
      | unfold Repo.st, Repo.status | unfold Repo.diff, Repo.localdiff, Repo._diff_command
      | unfold Repo.localdiff, Repo._diff_command | unfold Repo.serverdiff, Repo._diff_command ];
      apply (RejectRoot.rejected_after_setup w _ _ so co path jr _ _ Hv).
  - intros w so co f q; unfold Repo.checkout.
    destruct (RepoFacts.setup_config_spec w f q so co) as (t & c & Hs & Ht & _).
    assert (Hn : Forall (fun e => SpecSide.is_net e = false) t).
    { eapply Forall_impl; [|exact Ht]; intros e [s ->]; reflexivity. }
    rewrite Hs; simpl.
    destruct (Repo.quiet c); simpl; rewrite ?app_nil_r;
      (split; [eexists; reflexivity|]); simpl;
      try (apply Forall_app; split); try exact Hn; repeat constructor.
Qed.

Lemma root_filter_rejected_by_all_commands_witness :
  snd (Repo.validate_jcr_root (Fixtures.world0 None true) "/home/u/site/jcr_root")
    = Repo.Ok ("/home/u/site/jcr_root", "/")
  /\ SpecSide.rejected_with_usage_error
       (Repo.put (Fixtures.world0 None true) "/home/u/site/jcr_root" None None false false).
Proof.
  assert (Hv : snd (Repo.validate_jcr_root (Fixtures.world0 None true) "/home/u/site/jcr_root")
               = Repo.Ok ("/home/u/site/jcr_root", "/")) by reflexivity.
  split; [exact Hv|].
  exact (proj1 (proj1 root_filter_rejected_by_all_commands _ _ None None false false _ Hv)).
Defined.




(** C1: an explicit [-s] flag does not win over the [.repo] file.  The
    flags are stored before [load_config] reads the file, so a
    [server = ...] line found walking up from the working directory
    replaces the server given on the command line: every request of [put]
    and of [get] goes to the server of the file, none to the flag's. *)
Theorem repo_file_server_overrides_flag :
  let w := Fixtures.world0 (Some ["# settings"; "server = http://file:4502"]) true in
  let to_file (e : Repo.event) :=
    match e with
    | Repo.Net (Repo.Upload u | Repo.Post u | Repo.Download u) =>
        Py.startswith "http://file:4502/" u
    | _ => true
    end in
  let m1 := Repo.put w "a.txt" (Some "http://flag:4502") None false false in
  let m2 := Repo.get w "." (Some "http://flag:4502") None false false in
  existsb SpecSide.is_net (fst m1) = true /\ forallb to_file (fst m1) = true
  /\ existsb SpecSide.is_net (fst m2) = true /\ forallb to_file (fst m2) = true.
Proof. vm_compute; auto. Qed.

Module DiffFacts.
Import Repo SpecSide.

Lemma same_but_header_refl {A} (m : M A) : same_but_header m m.
Proof. split; reflexivity. Qed.

Lemma same_but_header_bind {A B} (m : M A) (k1 k2 : A -> M B) :
  (forall a, snd m = Ok a -> same_but_header (k1 a) (k2 a)) ->
  same_but_header (bind m k1) (bind m k2).
Proof.
  destruct m as [t [a|e]]; simpl; intro H; [|apply same_but_header_refl].
  destruct (H a eq_refl) as [H1 H2]; destruct (k1 a), (k2 a); simpl in *.
  split; simpl; [rewrite !map_app, H1|]; congruence.
Qed.

Lemma same_but_header_emit {B} (s1 s2 : string) (k : unit -> M B) :
  Py.startswith "Showing differences (" s1 = true ->
  Py.startswith "Showing differences (" s2 = true ->
  same_but_header (bind (emit (Echo s1)) k) (bind (emit (Echo s2)) k).
Proof.
  intros H1 H2; unfold bind, emit; destruct (k tt); simpl.
  assert (Hb : forall s, Py.startswith "Showing differences (" s = true ->
                 header_blind (Echo s) = Echo "Showing differences").
  { intros s Hs; unfold header_blind; rewrite Hs; reflexivity. }
  split; [cbn [fst map]; rewrite (Hb s1 H1), (Hb s2 H2)|]; reflexivity.
Qed.

End DiffFacts.

(** C7: [serverdiff] and [localdiff] (and [diff], which is [localdiff])
    run the same comparison and render it the same way: the only event in
    which they differ is the header line naming the direction, and their
    outcomes agree. In both, [diff -rduNw] gets the REMOTE snapshot first
    and the LOCAL snapshot second; the [inverse] flag does not reach
    [show_diff]. *)
Theorem serverdiff_same_as_localdiff (w : Repo.world) (path : string)
        (so co : option string) :
  SpecSide.same_but_header (Repo.serverdiff w path so co) (Repo.localdiff w path so co)
  /\ Repo.diff w path so co = Repo.localdiff w path so co.
Proof.
  split; [|reflexivity].
  unfold Repo.serverdiff, Repo.localdiff, Repo._diff_command; cbv zeta.
  apply DiffFacts.same_but_header_bind; intros c _.
  apply DiffFacts.same_but_header_bind; intros [jr fp] _.
  destruct (String.eqb fp "/"); [apply DiffFacts.same_but_header_refl|].
  apply DiffFacts.same_but_header_emit; apply PyFacts.startswith_app.
Qed.

Module NameFacts.
Import Py SpecSide.

Lemma replace_remove (a : ascii) (s : string) :
  replace (String a EmptyString) "" s = remove_char a s.
Proof.
  unfold replace; induction s as [|c s IH]; [reflexivity|].
  simpl; rewrite andb_true_r, Ascii.eqb_sym.
  destruct (Ascii.eqb c a); simpl; rewrite IH; reflexivity.
Qed.

Lemma lstrip_dash (s : string) :
  lstrip "-" s = string_of_list_ascii (drop_dashes (list_ascii_of_string s)).
Proof.
  induction s as [|c s IH]; [reflexivity|].
  assert (Hc : char_in c "-" = Ascii.eqb c "-")
    by (destruct c as [[] [] [] [] [] [] [] []]; reflexivity).
  simpl; rewrite Hc; destruct (Ascii.eqb c "-"); [exact IH|].
  simpl; rewrite string_of_list_ascii_of_string; reflexivity.
Qed.

Lemma strip_dash (s : string) : strip "-" s = trim_dashes s.
Proof.
  unfold strip, rstrip, rev_string, trim_dashes.
  rewrite !lstrip_dash, !list_ascii_of_string_of_list_ascii; reflexivity.
Qed.

End NameFacts.

(** C10: every command names its server-side package by the same rule,
    which is the rule of the spec ([spec_package_name]); the name is never
    empty; [/a/b] and [/a-b] get the same name, and indeed [put], [get],
    [status] and [diff] of the checkout folders [a/b] and [a-b] send
    identical build, install and delete requests for one and the same
    package path. *)
Theorem package_name_rule_and_collision :
  (forall fp : string,
     Repo.package_name_of fp = SpecSide.spec_package_name fp
     /\ Repo.package_name_of fp <> "")
  /\ Repo.package_name_of "/a/b" = "repoa-b"
  /\ Repo.package_name_of "/a-b" = "repoa-b"
  /\ (let w := Fixtures.world0 None true in
      let p1 := "/home/u/site/jcr_root/a/b" in
      let p2 := "/home/u/site/jcr_root/a-b" in
      let posts (m : Repo.M unit) :=
        filter (fun e => match e with Repo.Net (Repo.Post _) => true | _ => false end)
               (fst m) in
      posts (Repo.put w p1 None None false false) = posts (Repo.put w p2 None None false false)
      /\ posts (Repo.get w p1 None None false false) = posts (Repo.get w p2 None None false false)
      /\ posts (Repo.status w p1 None None) = posts (Repo.status w p2 None None)
      /\ posts (Repo.diff w p1 None None) = posts (Repo.diff w p2 None None)
      /\ In (Repo.Net (Repo.Post
               "http://localhost:4502/crx/packmgr/service/.json/etc/packages/tmp/repo/repoa-b-1700000000.zip?cmd=install"))
            (posts (Repo.put w p1 None None false false))).
Proof.
  split; [|split; [reflexivity|split; [reflexivity|]]].
  - intro fp; unfold Repo.package_name_of, SpecSide.spec_package_name.
    rewrite PyFacts.replace_char, NameFacts.replace_remove, NameFacts.strip_dash.
    destruct (String.eqb _ ""); simpl; split; try reflexivity; discriminate.
  - vm_compute; repeat split; auto 20.
Qed.

Module CleanupFacts.
Import Py Tree Cleanup SpecSide.

Lemma determine_spec (use_default : bool) (properties : list string) :
  let props := snd (determine_properties_to_remove use_default properties) in
  (forall x, In x props <->
     ((use_default = true \/ properties = []) /\ In x get_default_properties)
     \/ In x properties)
  /\ props <> [].
Proof.
  destruct use_default, properties as [|p ps]; simpl;
    (split; [intro x; rewrite ?in_app_iff; simpl|]);
    try discriminate; intuition (try discriminate).
Qed.

Lemma file_at_file_nil (c c' : string) (r : list string) :
  file_at (FFile c) r c' -> r = [] /\ c = c'.
Proof. intro H; inversion H; subst; auto. Qed.

Lemma fold_pl_join_cons (root x : string) (r : list string) :
  fold_left pl_join (x :: r) root = fold_left pl_join r (pl_join root x).
Proof. reflexivity. Qed.

Lemma last_cons_ne (x : string) (r : list string) :
  r <> [] -> last (x :: r) "" = last r "".
Proof. destruct r; [congruence| reflexivity]. Qed.

Lemma content_xml_walk_spec (n : fsnode) :
  forall root p,
  In p (content_xml_walk root n) <->
  exists rel c, file_at n rel c /\ rel <> [] /\ last rel "" = ".content.xml"
                /\ p = fold_left pl_join rel root.
Proof.
  induction n as [c0 | es IH] using TreeFacts.fsnode_ind2; intros root p.
  - simpl; split; [tauto|].
    intros (rel & c & Hf & Hr & _); apply file_at_file_nil in Hf as [-> _]; congruence.
  - rewrite Forall_forall in IH.
    simpl content_xml_walk; rewrite in_app_iff, !in_flat_map; split.
    + intros [((f, sub) & Hin & H) | ((d, sub) & Hin & H)].
      * destruct sub as [c' | es']; [|contradiction].
        destruct (String.eqb f ".content.xml") eqn:E; [|contradiction].
        apply String.eqb_eq in E; subst f.
        destruct H as [H|[]]; subst p.
        exists [".content.xml"], c'; split; [econstructor; [exact Hin| constructor]|].
        split; [discriminate|]; split; reflexivity.
      * destruct sub as [c' | es']; [contradiction|].
        apply (IH (d, FDir es') Hin) in H as (rel & c & Hf & Hr & Hl & ->).
        exists (d :: rel), c; split; [econstructor; [exact Hin| exact Hf]|].
        split; [discriminate|]; split; [rewrite last_cons_ne by exact Hr; exact Hl|].
        reflexivity.
    + intros (rel & c & Hf & Hr & Hl & ->).
      inversion Hf as [| es0 x sub r' c' Hin Hsub]; subst.
      destruct sub as [c'' | es'].
      * apply file_at_file_nil in Hsub as [-> ->].
        left; exists (x, FFile c); split; [exact Hin|].
        simpl in Hl; subst x; rewrite String.eqb_refl; left; reflexivity.
      * right; exists (x, FDir es'); split; [exact Hin|].
        assert (Hr' : r' <> []) by (intros ->; inversion Hsub).
        apply (IH (x, FDir es') Hin).
        exists r', c; split; [exact Hsub|]; split; [exact Hr'|].
        split; [rewrite <- (last_cons_ne x r' Hr'); exact Hl| reflexivity].
Qed.

Lemma node_folder_walk_spec (name mangled : string) (n : fsnode) :
  forall root p,
  In p (node_folder_walk name mangled root n) <->
  exists rel, dir_at n rel /\ rel <> []
              /\ (last rel "" = name \/ last rel "" = mangled)
              /\ p = fold_left pl_join rel root.
Proof.
  induction n as [c0 | es IH] using TreeFacts.fsnode_ind2; intros root p.
  - simpl; split; [tauto|].
    intros (rel & Hd & Hr & _); inversion Hd; subst; congruence.
  - rewrite Forall_forall in IH.
    simpl node_folder_walk; rewrite in_app_iff, !in_flat_map; split.
    + intros [((d, sub) & Hin & H) | ((d, sub) & Hin & H)].
      * destruct sub as [c' | es']; [contradiction|].
        destruct (String.eqb d name || String.eqb d mangled) eqn:E; [|contradiction].
        destruct H as [H|[]]; subst p.
        exists [d]; split; [econstructor; [exact Hin| constructor]|].
        split; [discriminate|]; split; [|reflexivity].
        apply orb_true_iff in E as [E|E]; apply String.eqb_eq in E; auto.
      * destruct sub as [c' | es']; [contradiction|].
        apply (IH (d, FDir es') Hin) in H as (rel & Hd & Hr & Hl & ->).
        exists (d :: rel); split; [econstructor; [exact Hin| exact Hd]|].
        split; [discriminate|]; split; [rewrite last_cons_ne by exact Hr; exact Hl|].
        reflexivity.
    + intros (rel & Hd & Hr & Hl & ->).
      inversion Hd as [| es0 x sub r' Hin Hsub]; subst; [congruence|].
      destruct sub as [c'' | es']; [inversion Hsub|].
      destruct r' as [|y r''].
      * left; exists (x, FDir es'); split; [exact Hin|].
        simpl in Hl; destruct Hl as [-> | ->];
          rewrite ?String.eqb_refl, ?orb_true_r; left; reflexivity.
      * right; exists (x, FDir es'); split; [exact Hin|].
        apply (IH (x, FDir es') Hin).
        exists (y :: r''); split; [exact Hsub|]; split; [discriminate|].
        split; [exact Hl| reflexivity].
Qed.

End CleanupFacts.

(** X1: [determine_properties_to_remove] returns the default properties
    when [--default] is given or no property is named, together with every
    named property, and never returns an empty set; so the [property]
    command, run on an existing path, never stops with "No properties
    specified for removal" (it never aborts). *)
Theorem determine_properties_nonempty_property_never_aborts :
  (forall (use_default : bool) (properties : list string),
     let props := snd (Cleanup.determine_properties_to_remove use_default properties) in
     (forall x, In x props <->
        ((use_default = true \/ properties = []) /\ In x Cleanup.get_default_properties)
        \/ In x properties)
     /\ props <> [])
  /\ (forall (cw : Cleanup.cworld) (path : string) (n : Tree.fsnode)
             (dry_run use_default : bool) (properties : list string),
        snd (Cleanup.property cw path (Some n) dry_run use_default properties)
        = Cleanup.CDone).
Proof.
  split; [exact CleanupFacts.determine_spec|].
  intros cw path n dry_run use_default properties; unfold Cleanup.property.
  destruct (CleanupFacts.determine_spec use_default properties) as [_ Hne].
  destruct (Cleanup.determine_properties_to_remove use_default properties) as [o props].
  simpl in Hne; destruct props as [|x xs]; [congruence|].
  destruct (Cleanup.find_content_xml_files path n); [reflexivity|].
  destruct (Cleanup.process_files_for_properties _ _ _) as [o4 [m t]]; reflexivity.
Qed.

(** X2: a mangled node name contains no colon, so mangling is idempotent:
    [mangle_node_name(mangle_node_name(n)) == mangle_node_name(n)]. *)
Theorem mangle_node_name_idempotent (n : string) :
  Py.contains ":" (NodeName.mangle_node_name n) = false
  /\ NodeName.mangle_node_name (NodeName.mangle_node_name n) = NodeName.mangle_node_name n.
Proof.
  assert (Hs : forall s, Py.contains ":" (SpecSide.subst_char ":" "_" s) = false).
  { induction s as [|c s IH]; [reflexivity|].
    change (SpecSide.subst_char ":" "_" (String c s))
      with (String (if Ascii.eqb c ":" then "_"%char else c) (SpecSide.subst_char ":" "_" s)).
    rewrite PyFacts.contains_cons, PyFacts.startswith_char, IH, orb_false_r.
    destruct (Ascii.eqb c ":") eqn:E; [reflexivity|].
    rewrite Ascii.eqb_sym; exact E. }
  assert (Hm : Py.contains ":" (NodeName.mangle_node_name n) = false).
  { unfold NodeName.mangle_node_name.
    destruct (Py.contains ":" n) eqn:E; [|exact E].
    change ("_" ++ Py.replace ":" "_" n) with (String "_" (Py.replace ":" "_" n)).
    rewrite PyFacts.contains_cons, PyFacts.replace_char, Hs; reflexivity. }
  split; [exact Hm|].
  unfold NodeName.mangle_node_name at 1; rewrite Hm; reflexivity.
Qed.

(** X3: [find_content_xml_files(base)] lists exactly the regular files
    named [.content.xml] at any depth below [base] (never [base] itself),
    each as [str(Path(base) / ... / ".content.xml")]. *)
Theorem find_content_xml_files_spec (base : string) (n : Tree.fsnode) (p : string) :
  In p (Cleanup.find_content_xml_files base n) <->
  exists rel c, SpecSide.file_at n rel c /\ rel <> []
                /\ last rel "" = ".content.xml"
                /\ p = fold_left Tree.pl_join rel base.
Proof. apply CleanupFacts.content_xml_walk_spec. Qed.

(** X4: [find_node_folders(base, name)] lists exactly the directories at
    any depth below [base] whose name is [name] or [mangle_node_name(name)],
    including those lying inside another listed directory. *)
Theorem find_node_folders_spec (base : string) (n : Tree.fsnode) (name p : string) :
  In p (Cleanup.find_node_folders base n name) <->
  exists rel, SpecSide.dir_at n rel /\ rel <> []
              /\ (last rel "" = name \/ last rel "" = NodeName.mangle_node_name name)
              /\ p = fold_left Tree.pl_join rel base.
Proof. apply CleanupFacts.node_folder_walk_spec. Qed.

(** ** Facts on [remove_node_folders] *)
Module RemoveFacts.
Import Py Cleanup Loops.

Lemma startswith_spec (p s : string) :
  startswith p s = true <-> exists t, s = p ++ t.
Proof.
  revert s; induction p as [|c p IH]; intros s; simpl.
  - split; [intros _; exists s; reflexivity|reflexivity].
  - destruct s as [|d s].
    + split; [discriminate|intros [t Ht]; discriminate].
    + rewrite andb_true_iff, Ascii.eqb_eq, IH; split.
      * intros [-> [t ->]]; exists t; reflexivity.
      * intros [t Ht]; injection Ht as -> Ht; split; [reflexivity|exists t; exact Ht].
Qed.

Lemma gone_trans (r : list string) (p q : string) :
  gone r p = true -> startswith (p ++ "/") q = true -> gone r q = true.
Proof.
  unfold gone; rewrite !existsb_exists; intros [x [Hx Hp]] Hq; exists x; split; [exact Hx|].
  apply startswith_spec in Hq as [t ->].
  apply orb_true_iff in Hp as [Hp|Hp].
  - apply String.eqb_eq in Hp; subst x; rewrite PyFacts.startswith_app, orb_true_r; reflexivity.
  - apply startswith_spec in Hp as [u ->].
    rewrite orb_true_iff; right; apply startswith_spec; eexists; rewrite !PathFacts.app_assoc_str; reflexivity.
Qed.

Lemma gone_app (new r : list string) (p : string) :
  gone r p = true -> gone (new ++ r) p = true.
Proof. unfold gone; rewrite existsb_app; intros ->; apply orb_true_r. Qed.

Section Steps.
Variable cw : cworld.



Lemma remove_node_folders_eq (folders : list string) (dry_run : bool) :
  remove_node_folders cw folders dry_run =
  if Nat.ltb 0 (List.length folders) then
    let '(out, _, removed_count) :=
      fold_left (rn_step cw dry_run) folders (rn_header (List.length folders), [], 0) in
    (out, (removed_count, List.length folders))
  else ([], (0, 0)).
Proof. reflexivity. Qed.

Lemma rn_fold_dry (l : list string) o r k :
  fold_left (rn_step cw true) l (o, r, k) =
  ((o ++ map (fun f => CEcho ("Would remove folder: " ++ f)) l)%list, r, k + List.length l).
Proof.
  revert o k; induction l as [|f l IH]; intros o k; simpl.
  - rewrite app_nil_r, Nat.add_0_r; reflexivity.
  - rewrite IH, <- app_assoc, Nat.add_succ_r; reflexivity.
Qed.

Lemma rn_step_count (d : bool) (st : list cevent * list string * nat) (p : string) :
  snd (rn_step cw d st p) <= S (snd st).
Proof.
  destruct st as [[o r] k]; destruct d; simpl; [lia|].
  destruct (_ || _); simpl; lia.
Qed.

Lemma rn_step_grow (d : bool) (st : list cevent * list string * nat) (p : string) :
  exists o' new, fst (rn_step cw d st p) = ((fst (fst st) ++ o')%list, (new ++ snd (fst st))%list).
Proof.
  destruct st as [[o r] k]; destruct d; simpl.
  - eexists; exists []; reflexivity.
  - destruct (_ || _); simpl; eexists; [exists []|exists [p]]; reflexivity.
Qed.

Lemma rn_fold_count (d : bool) (l : list string) (st : list cevent * list string * nat) :
  snd (fold_left (rn_step cw d) l st) <= snd st + List.length l.
Proof.
  revert st; induction l as [|f l IH]; intros st; simpl; [lia|].
  specialize (IH (rn_step cw d st f)); pose proof (rn_step_count d st f); lia.
Qed.

Lemma rn_fold_grow (d : bool) (l : list string) (st : list cevent * list string * nat) :
  exists o' new, fst (fold_left (rn_step cw d) l st)
                 = ((fst (fst st) ++ o')%list, (new ++ snd (fst st))%list).
Proof.
  revert st; induction l as [|f l IH]; intros st; simpl.
  - exists [], []; destruct st as [[o r] k]; rewrite app_nil_r; reflexivity.
  - destruct (rn_step_grow d st f) as [o1 [n1 H1]].
    destruct (IH (rn_step cw d st f)) as [o2 [n2 H2]].
    rewrite H2; destruct (rn_step cw d st f) as [[o r] k]; simpl in H1 |- *.
    injection H1 as -> ->; exists (o1 ++ o2)%list, (n2 ++ n1)%list.
    rewrite !app_assoc; reflexivity.
Qed.

Lemma rn_step_gone (p : string) o r k :
  rmtree_ok cw p = true -> gone (snd (fst (rn_step cw false (o, r, k) p))) p = true.
Proof.
  intros Hok; simpl; rewrite Hok; simpl.
  destruct (gone r p) eqn:G; simpl; rewrite ?G; [reflexivity|].
  unfold gone; simpl; rewrite String.eqb_refl; reflexivity.
Qed.

Lemma rn_step_err (q : string) o r k :
  gone r q = true ->
  rn_step cw false (o, r, k) q
  = ((o ++ [CEcho ("✗ Error removing folder " ++ q ++ ": <error>")])%list, r, k).
Proof. intros G; simpl; rewrite G; reflexivity. Qed.

End Steps.
End RemoveFacts.

(** X5: a dry run of [remove_node_folders] counts every folder as removed
    and removes none; in every run the removed count is at most the total. *)
Theorem remove_node_folders_dry_run_counts (cw : Cleanup.cworld) (folders : list string) :
  snd (Cleanup.remove_node_folders cw folders true) = (List.length folders, List.length folders)
  /\ (forall p, ~ In (Cleanup.CRmtree p) (fst (Cleanup.remove_node_folders cw folders true)))
  /\ (forall dry_run : bool,
        fst (snd (Cleanup.remove_node_folders cw folders dry_run))
        <= snd (snd (Cleanup.remove_node_folders cw folders dry_run))).
Proof.
  rewrite !RemoveFacts.remove_node_folders_eq, RemoveFacts.rn_fold_dry.
  destruct (Nat.ltb 0 (List.length folders)) eqn:E.
  - split; [reflexivity|split].
    + intros p Hin; simpl in Hin.
      destruct Hin as [H|[H|H]]; try discriminate.
      apply in_map_iff in H as [f [H _]]; discriminate.
    + intros dry_run; rewrite RemoveFacts.remove_node_folders_eq, E.
      pose proof (RemoveFacts.rn_fold_count cw dry_run folders
                    (Loops.rn_header (List.length folders), [], 0)) as H.
      destruct (fold_left _ _ _) as [[o r] k]; simpl in *; lia.
  - apply Nat.ltb_nlt in E; destruct folders; [|simpl in E; lia].
    split; [reflexivity|split]; [intros p []|intros; reflexivity].
Qed.

(** X6: in a real run of [remove_node_folders], once a folder [p] has been
    removed (or lies inside one removed before), a later folder lying inside
    [p] can no longer be removed: an error is echoed for it and the removed
    count stays below the total. *)
Theorem remove_node_folders_nested_fails (cw : Cleanup.cworld) (l1 l2 l3 : list string)
        (p q : string) :
  Cleanup.rmtree_ok cw p = true ->
  Py.startswith (p ++ "/") q = true ->
  let folders := (l1 ++ p :: l2 ++ q :: l3)%list in
  In (Cleanup.CEcho ("✗ Error removing folder " ++ q ++ ": <error>"))
     (fst (Cleanup.remove_node_folders cw folders false))
  /\ fst (snd (Cleanup.remove_node_folders cw folders false)) < List.length folders.
Proof.
  intros Hok Hpq folders; subst folders.
  rewrite RemoveFacts.remove_node_folders_eq.
  replace (Nat.ltb 0 _) with true
    by (symmetry; apply Nat.ltb_lt; rewrite length_app; simpl; lia).
  set (total := List.length (l1 ++ p :: l2 ++ q :: l3)).
  rewrite fold_left_app; cbn [fold_left]; rewrite fold_left_app; cbn [fold_left].
  pose proof (RemoveFacts.rn_fold_count cw false l1 (Loops.rn_header total, [], 0)) as C1.
  destruct (fold_left (Loops.rn_step cw false) l1 _) as [[o1 r1] k1] eqn:F1.
  pose proof (RemoveFacts.rn_step_gone cw p o1 r1 k1 Hok) as G2.
  pose proof (RemoveFacts.rn_step_count cw false (o1, r1, k1) p) as C2.
  destruct (Loops.rn_step cw false (o1, r1, k1) p) as [[o2 r2] k2] eqn:F2.
  pose proof (RemoveFacts.rn_fold_grow cw false l2 (o2, r2, k2)) as [o' [new G3]].
  pose proof (RemoveFacts.rn_fold_count cw false l2 (o2, r2, k2)) as C3.
  destruct (fold_left (Loops.rn_step cw false) l2 (o2, r2, k2)) as [[o3 r3] k3] eqn:F3.
  simpl in G2, G3, C1, C2, C3; injection G3 as -> ->.
  assert (Gq : Cleanup.gone (new ++ r2) q = true)
    by (apply RemoveFacts.gone_app, (RemoveFacts.gone_trans r2 p); assumption).
  rewrite (RemoveFacts.rn_step_err cw q _ _ k3 Gq).
  pose proof (RemoveFacts.rn_fold_grow cw false l3
                (((o2 ++ o') ++ [Cleanup.CEcho ("✗ Error removing folder " ++ q ++ ": <error>")])%list,
                 (new ++ r2)%list, k3)) as [o'' [new' G4]].
  pose proof (RemoveFacts.rn_fold_count cw false l3
                (((o2 ++ o') ++ [Cleanup.CEcho ("✗ Error removing folder " ++ q ++ ": <error>")])%list,
                 (new ++ r2)%list, k3)) as C4.
  destruct (fold_left _ l3 _) as [[o4 r4] k4]; simpl in G4, C4 |- *.
  injection G4 as -> _; split.
  - rewrite <- app_assoc; apply in_or_app; right; left; reflexivity.
  - subst total; rewrite length_app; simpl; rewrite length_app; simpl; lia.
Qed.

Lemma remove_node_folders_nested_fails_witness :
  let cw := Cleanup.mkCWorld (fun _ => None) (fun _ => true) (fun _ => true) (fun l => l) in
  (Cleanup.rmtree_ok cw "a/x" = true /\ Py.startswith ("a/x" ++ "/") "a/x/x" = true)
  /\ In (Cleanup.CEcho ("✗ Error removing folder " ++ "a/x/x" ++ ": <error>"))
        (fst (Cleanup.remove_node_folders cw ([] ++ "a/x" :: [] ++ "a/x/x" :: [])%list false))
  /\ fst (snd (Cleanup.remove_node_folders cw ([] ++ "a/x" :: [] ++ "a/x/x" :: [])%list false))
     < List.length ([] ++ "a/x" :: [] ++ "a/x/x" :: [])%list.
Proof.
  intros cw; split; [split; reflexivity|].
  apply (remove_node_folders_nested_fails cw [] [] [] "a/x" "a/x/x"); reflexivity.
Defined.

(** ** Facts on [clean_xml_file] and [process_files_for_properties] *)
Module CleanFacts.
Import Py Cleanup Loops.

Lemma first_some_in {A} (l : list (option A)) (x : A) :
  first_some l = Some x -> In (Some x) l.
Proof.
  induction l as [|[y|] l IH]; simpl; intro H; try discriminate.
  - injection H as ->; left; reflexivity.
  - right; exact (IH H).
Qed.

Lemma space_unit_suffix (s r : string) :
  space_unit s = Some r -> exists u, s = u ++ r.
Proof.
  unfold space_unit; destruct (List.find _ space_units) as [u|] eqn:F; [|discriminate].
  intro H; injection H as <-.
  apply find_some in F as [_ F]; apply RemoveFacts.startswith_spec in F as [t ->].
  exists u; rewrite PyFacts.drop_app; reflexivity.
Qed.

Lemma space_run_suffix (fuel : nat) (s r : string) :
  In r (space_run fuel s) -> exists x, s = x ++ r.
Proof.
  revert s; induction fuel as [|f IH]; intros s H; simpl in H; [contradiction|].
  destruct (space_unit s) as [r0|] eqn:U; [|contradiction].
  apply space_unit_suffix in U as [u ->].
  destruct H as [<-|H]; [exists u; reflexivity|].
  apply IH in H as [x ->]; exists (u ++ x); symmetry; apply PathFacts.app_assoc_str.
Qed.

Lemma contains_prefix (p t : string) : contains p (p ++ t) = true.
Proof.
  unfold contains; pose proof (PyFacts.startswith_app p t) as H.
  destruct (p ++ t) as [|c r]; simpl; rewrite H; reflexivity.
Qed.

(** A match of the property pattern contains the property name. *)
Lemma search_contains (prop s : string) :
  search prop s = true -> contains prop s = true.
Proof.
  induction s as [|c s IH]; simpl; [discriminate|].
  destruct (match_at prop (String c s)) as [x|] eqn:M.
  - intros _; unfold match_at in M.
    apply first_some_in, in_map_iff in M as [r [T Hr]].
    apply in_rev, space_run_suffix in Hr as [y Hy].
    unfold tail_match in T.
    destruct (startswith (prop ++ "=" ++ Builder.dq) r) eqn:S; [|discriminate].
    apply RemoveFacts.startswith_spec in S as [t ->].
    rewrite Hy; apply PyFacts.contains_app_r.
    rewrite PathFacts.app_assoc_str; apply contains_prefix.
  - intro H; rewrite PyFacts.contains_cons, (IH H); apply orb_true_r.
Qed.


Lemma remove_properties_eq (content : string) (properties : list string) :
  remove_properties content properties = fold_left rp_step properties (content, false, []).
Proof. reflexivity. Qed.

Lemma rp_fold_nohit (l : list string) c m o :
  (forall p, In p l -> search p c = false) -> fold_left rp_step l (c, m, o) = (c, m, o).
Proof.
  revert m o; induction l as [|p l IH]; intros m o H; [reflexivity|].
  simpl; rewrite (H p (or_introl eq_refl)); apply IH.
  intros q Hq; apply H; right; exact Hq.
Qed.


Lemma rp_fold_echo (l : list string) c m o :
  Forall is_echo o -> Forall is_echo (snd (fold_left rp_step l (c, m, o))).
Proof.
  revert c m o; induction l as [|p l IH]; intros c m o H; [exact H|].
  simpl; destruct (search p c); apply IH; [|exact H].
  apply Forall_app; split; [exact H|constructor; [eexists; reflexivity|constructor]].
Qed.

Lemma Forall_echo_app (o1 o2 : list cevent) :
  Forall is_echo o1 -> Forall is_echo o2 -> Forall is_echo (o1 ++ o2)%list.
Proof. intros; apply Forall_app; split; assumption. Qed.

Lemma echo_no_write (o : list cevent) (p c : string) :
  Forall is_echo o -> ~ In (CWrite p c) o.
Proof.
  intros H Hin; rewrite Forall_forall in H; destruct (H _ Hin) as [s E]; discriminate.
Qed.

Section Worlds.
Variable cw : cworld.

Lemma clean_dry_echo (f : string) (props : list string) :
  Forall is_echo (fst (clean_xml_file cw f props true)).
Proof.
  unfold clean_xml_file; destruct (read_text cw f) as [c|].
  - rewrite remove_properties_eq.
    pose proof (rp_fold_echo props c false [] (Forall_nil _)) as H.
    destruct (fold_left rp_step props (c, false, [])) as [[c' m] o]; simpl in H.
    rewrite andb_false_r; destruct m; simpl;
      (apply Forall_echo_app; [exact H|constructor; [eexists; reflexivity|constructor]]).
  - constructor; [eexists; reflexivity|constructor].
Qed.

Lemma clean_dry_real (f : string) (props : list string) :
  write_ok cw f = true ->
  snd (clean_xml_file cw f props true) = snd (clean_xml_file cw f props false).
Proof.
  intro W; unfold clean_xml_file; destruct (read_text cw f) as [c|]; [|reflexivity].
  destruct (remove_properties c props) as [[c' m] o].
  rewrite W; destruct m; reflexivity.
Qed.


Lemma process_eq (files props : list string) (dry_run : bool) :
  process_files_for_properties cw files props dry_run =
  let '(out, modified_count) :=
    fold_left (pf_step cw props dry_run) files
      ([CEcho (nl ++ "Processing " ++ str_of_N (N.of_nat (List.length files))
               ++ " files for property removal...");
        CEcho dashes], 0) in
  (out, (modified_count, List.length files)).
Proof. reflexivity. Qed.

Lemma pf_fold_count (props files : list string) (d : bool) st :
  snd (fold_left (pf_step cw props d) files st) <= snd st + List.length files.
Proof.
  revert st; induction files as [|f l IH]; intros [o k]; simpl; [lia|].
  destruct (clean_xml_file cw f props d) as [t [|]];
    [specialize (IH ((o ++ t)%list, S k))|specialize (IH ((o ++ t)%list, k))];
    simpl in IH; lia.
Qed.

Lemma pf_fold_dry_real (props files : list string) o1 o2 k :
  (forall f, In f files -> write_ok cw f = true) ->
  snd (fold_left (pf_step cw props true) files (o1, k))
  = snd (fold_left (pf_step cw props false) files (o2, k)).
Proof.
  revert o1 o2 k; induction files as [|f l IH]; intros o1 o2 k W; [reflexivity|].
  simpl; pose proof (clean_dry_real f props (W f (or_introl eq_refl))) as E.
  destruct (clean_xml_file cw f props true) as [t1 r1];
    destruct (clean_xml_file cw f props false) as [t2 r2]; simpl in E; subst r2.
  apply IH; intros g Hg; apply W; right; exact Hg.
Qed.

Lemma pf_fold_echo (props files : list string) o k :
  Forall is_echo o -> Forall is_echo (fst (fold_left (pf_step cw props true) files (o, k))).
Proof.
  revert o k; induction files as [|f l IH]; intros o k H; [exact H|].
  simpl; pose proof (clean_dry_echo f props) as E.
  destruct (clean_xml_file cw f props true) as [t r]; simpl in E.
  apply IH, Forall_echo_app; assumption.
Qed.

End Worlds.

Lemma determine_echo (use_default : bool) (properties : list string) :
  Forall is_echo (fst (determine_properties_to_remove use_default properties)).
Proof.
  unfold determine_properties_to_remove.
  destruct properties, use_default; simpl;
    repeat (constructor; [eexists; reflexivity|]); constructor.
Qed.

Lemma summary_echo (m t : nat) (d : bool) : Forall is_echo (print_summary m t d).
Proof.
  unfold print_summary; destruct d; simpl;
    repeat (constructor; [eexists; reflexivity|]); constructor.
Qed.

End CleanFacts.

(** X7: [clean_xml_file] leaves a file that it can read alone when none of
    the properties occurs in its text: it echoes "- No changes needed" and
    returns False, in a dry run as in a real one. *)
Theorem clean_xml_file_untouched (cw : Cleanup.cworld) (file_path content : string)
        (properties : list string) (dry_run : bool) :
  Cleanup.read_text cw file_path = Some content ->
  (forall prop, In prop properties -> Py.contains prop content = false) ->
  Cleanup.clean_xml_file cw file_path properties dry_run
  = ([Cleanup.CEcho ("- No changes needed: " ++ file_path)], false).
Proof.
  intros R H; unfold Cleanup.clean_xml_file; rewrite R, CleanFacts.remove_properties_eq.
  rewrite CleanFacts.rp_fold_nohit; [destruct dry_run; reflexivity|].
  intros p Hp; destruct (Cleanup.search p content) eqn:S; [|reflexivity].
  apply CleanFacts.search_contains in S; rewrite (H p Hp) in S; discriminate.
Qed.

Lemma clean_xml_file_untouched_witness :
  let cw := Cleanup.mkCWorld (fun _ => Some "<a b='c'/>") (fun _ => true) (fun _ => true)
                             (fun l => l) in
  (Cleanup.read_text cw "f" = Some "<a b='c'/>"
   /\ forall prop, In prop ["jcr:uuid"] -> Py.contains prop "<a b='c'/>" = false)
  /\ Cleanup.clean_xml_file cw "f" ["jcr:uuid"] false
     = ([Cleanup.CEcho ("- No changes needed: " ++ "f")], false).
Proof.
  intros cw.
  assert (H : forall prop, In prop ["jcr:uuid"] -> Py.contains prop "<a b='c'/>" = false)
    by (intros prop [<-|[]]; reflexivity).
  split; [split; [reflexivity|exact H]|].
  apply (clean_xml_file_untouched cw "f" "<a b='c'/>" ["jcr:uuid"] false); [reflexivity|exact H].
Defined.

(** X8: a dry run of [clean_xml_file] never writes the file, and it
    returns the same answer (whether the file would be modified) as a real
    run whose write succeeds. *)
Theorem clean_xml_file_dry_run (cw : Cleanup.cworld) (file_path : string)
        (properties : list string) :
  (forall p c, ~ In (Cleanup.CWrite p c) (fst (Cleanup.clean_xml_file cw file_path properties true)))
  /\ (Cleanup.write_ok cw file_path = true ->
      snd (Cleanup.clean_xml_file cw file_path properties true)
      = snd (Cleanup.clean_xml_file cw file_path properties false)).
Proof.
  split.
  - intros p c; apply CleanFacts.echo_no_write, CleanFacts.clean_dry_echo.
  - apply CleanFacts.clean_dry_real.
Qed.

Lemma clean_xml_file_dry_run_witness :
  let cw := Cleanup.mkCWorld (fun _ => Some " jcr:uuid='x'") (fun _ => true) (fun _ => true)
                             (fun l => l) in
  Cleanup.write_ok cw "f" = true
  /\ snd (Cleanup.clean_xml_file cw "f" ["jcr:uuid"] true)
     = snd (Cleanup.clean_xml_file cw "f" ["jcr:uuid"] false).
Proof.
  intros cw; split; [reflexivity|].
  apply (proj2 (clean_xml_file_dry_run cw "f" ["jcr:uuid"])); reflexivity.
Defined.

(** X9: [process_files_for_properties] returns a modified count at most
    the total count, which is the number of files; a dry run counts the
    same modified files as a real run in which every write succeeds. *)
Theorem process_files_for_properties_counts (cw : Cleanup.cworld)
        (files properties : list string) :
  (forall dry_run : bool,
     snd (snd (Cleanup.process_files_for_properties cw files properties dry_run))
     = List.length files
     /\ fst (snd (Cleanup.process_files_for_properties cw files properties dry_run))
        <= List.length files)
  /\ ((forall f, In f files -> Cleanup.write_ok cw f = true) ->
      snd (Cleanup.process_files_for_properties cw files properties true)
      = snd (Cleanup.process_files_for_properties cw files properties false)).
Proof.
  split.
  - intros d; rewrite CleanFacts.process_eq.
    pose proof (CleanFacts.pf_fold_count cw properties files d
                  ([Cleanup.CEcho (Py.nl ++ "Processing "
                     ++ Py.str_of_N (N.of_nat (List.length files))
                     ++ " files for property removal..."); Cleanup.CEcho Cleanup.dashes], 0)) as H.
    destruct (fold_left _ _ _) as [o k]; simpl in *; split; [reflexivity|lia].
  - intros W; rewrite !CleanFacts.process_eq.
    pose proof (CleanFacts.pf_fold_dry_real cw properties files
                  [Cleanup.CEcho (Py.nl ++ "Processing "
                     ++ Py.str_of_N (N.of_nat (List.length files))
                     ++ " files for property removal..."); Cleanup.CEcho Cleanup.dashes]
                  [Cleanup.CEcho (Py.nl ++ "Processing "
                     ++ Py.str_of_N (N.of_nat (List.length files))
                     ++ " files for property removal..."); Cleanup.CEcho Cleanup.dashes]
                  0 W) as E.
    destruct (fold_left (Loops.pf_step cw properties true) _ _) as [o1 k1].
    destruct (fold_left (Loops.pf_step cw properties false) _ _) as [o2 k2].
    simpl in E |- *; rewrite E; reflexivity.
Qed.

Lemma process_files_for_properties_counts_witness :
  let cw := Cleanup.mkCWorld (fun _ => Some " jcr:uuid='x'") (fun _ => true) (fun _ => true)
                             (fun l => l) in
  (forall f, In f ["a"; "b"] -> Cleanup.write_ok cw f = true)
  /\ snd (Cleanup.process_files_for_properties cw ["a"; "b"] ["jcr:uuid"] true)
     = snd (Cleanup.process_files_for_properties cw ["a"; "b"] ["jcr:uuid"] false).
Proof.
  intros cw; assert (W : forall f, In f ["a"; "b"] -> Cleanup.write_ok cw f = true)
    by (intros; reflexivity).
  split; [exact W|].
  apply (proj2 (process_files_for_properties_counts cw ["a"; "b"] ["jcr:uuid"])); exact W.
Defined.

(** X10: the [property] command with [--dry-run] never writes a file, for
    any path, tree, property list and [--default] flag. *)
Theorem property_dry_run_never_writes (cw : Cleanup.cworld) (path : string)
        (tree : option Tree.fsnode) (use_default : bool) (properties : list string)
        (p c : string) :
  ~ In (Cleanup.CWrite p c) (fst (Cleanup.property cw path tree true use_default properties)).
Proof.
  apply CleanFacts.echo_no_write; unfold Cleanup.property.
  destruct tree as [n|]; [|constructor; [eexists; reflexivity|constructor]].
  pose proof (CleanFacts.determine_echo use_default properties) as D.
  destruct (Cleanup.determine_properties_to_remove use_default properties) as [o1 props].
  simpl in D.
  destruct props as [|x xs].
  { apply CleanFacts.Forall_echo_app; [exact D|constructor; [eexists; reflexivity|constructor]]. }
  destruct (Cleanup.find_content_xml_files path n) as [|f fs].
  { apply CleanFacts.Forall_echo_app; [exact D|].
    repeat (constructor; [eexists; reflexivity|]); constructor. }
  rewrite CleanFacts.process_eq.
  match goal with
  | |- context [fold_left (Loops.pf_step cw ?pr true) ?fl (?h, 0)] =>
      pose proof (CleanFacts.pf_fold_echo cw pr fl h 0) as P;
      destruct (fold_left (Loops.pf_step cw pr true) fl (h, 0)) as [o4 k]
  end.
  simpl in P |- *.
  apply CleanFacts.Forall_echo_app; [exact D|].
  repeat (constructor; [eexists; reflexivity|]).
  apply CleanFacts.Forall_echo_app;
    [apply P; repeat (constructor; [eexists; reflexivity|]); constructor
    |apply CleanFacts.summary_echo].
Qed.

(** ** Facts on the configuration and the checkout layout *)
Module ConfigFacts.
Import Py Repo SpecSide.

Lemma printable_not_ws (c : ascii) : printable c = true -> char_in c whitespace = false.
Proof.
  destruct c as [[] [] [] [] [] [] [] []]; vm_compute; intro H;
    first [reflexivity | discriminate H].
Qed.

Lemma lstrip_printable (l : list ascii) :
  forallb printable l = true -> lstrip whitespace (string_of_list_ascii l) = string_of_list_ascii l.
Proof.
  destruct l as [|c l]; intro H; [reflexivity|].
  apply andb_true_iff in H as [H _]; simpl; rewrite (printable_not_ws c H); reflexivity.
Qed.

Lemma strip_printable (s : string) :
  forallb printable (list_ascii_of_string s) = true -> strip whitespace s = s.
Proof.
  intro H; unfold strip, rstrip, rev_string.
  rewrite <- (string_of_list_ascii_of_string s) at 1.
  rewrite (lstrip_printable (list_ascii_of_string s) H).
  rewrite list_ascii_of_string_of_list_ascii, lstrip_printable.
  - rewrite list_ascii_of_string_of_list_ascii, rev_involutive, string_of_list_ascii_of_string.
    reflexivity.
  - rewrite forallb_forall in *; intros x Hx; apply H, in_rev, Hx.
Qed.

Lemma parse_line_server (c : RepoConfig) (v : string) :
  forallb printable (list_ascii_of_string v) = true ->
  parse_config_line c ("server=" ++ v) = set_server c v.
Proof.
  intro H; unfold parse_config_line.
  rewrite (strip_printable ("server=" ++ v)) by (simpl; exact H).
  simpl; rewrite (strip_printable v H); reflexivity.
Qed.

Lemma parse_line_credentials (c : RepoConfig) (v : string) :
  forallb printable (list_ascii_of_string v) = true ->
  parse_config_line c ("credentials=" ++ v) = set_credentials c v.
Proof.
  intro H; unfold parse_config_line.
  rewrite (strip_printable ("credentials=" ++ v)) by (simpl; exact H).
  simpl; rewrite (strip_printable v H); reflexivity.
Qed.

Lemma app_eq_snoc {A} (pre post l : list A) (x : A) :
  (pre ++ post = l ++ [x])%list ->
  (post = [] /\ pre = (l ++ [x])%list) \/ exists post0, post = (post0 ++ [x])%list /\ l = (pre ++ post0)%list.
Proof.
  intro E; destruct post as [|y post] using rev_ind.
  - left; rewrite app_nil_r in E; split; [reflexivity|exact E].
  - right; rewrite app_assoc in E; apply app_inj_tail in E as [E ->].
    exists post; split; [reflexivity|symmetry; exact E].
Qed.

Section World.
Variable w : world.

Lemma find_up_rev_some (comps : list string) (f p : string) :
  find_up_rev w (rev comps) f = Some p <->
  exists pre post, comps = (pre ++ post)%list /\ pre <> [] /\
    p = path_join (dir_string pre) f /\ exists_path w p = true /\
    (forall pre' post', comps = (pre' ++ post')%list -> List.length pre < List.length pre' ->
       exists_path w (path_join (dir_string pre') f) = false).
Proof.
  induction comps as [|x l IH] using rev_ind.
  - simpl; split; [discriminate|].
    intros (pre & post & E & Hne & _); symmetry in E; apply app_eq_nil in E as [-> _].
    congruence.
  - rewrite rev_app_distr; simpl; rewrite rev_involutive.
    destruct (exists_path w (path_join (dir_string (l ++ [x])) f)) eqn:X.
    + split.
      * intro H; injection H as <-.
        exists (l ++ [x])%list, []; rewrite app_nil_r; repeat split; auto.
        -- intro N; apply app_eq_nil in N as [_ N]; discriminate.
        -- intros pre' post' E Hl; exfalso.
           assert (Hlen := f_equal (@List.length string) E); rewrite !length_app in Hl; rewrite (length_app pre' post'), length_app in Hlen; simpl in *; lia.
      * intros (pre & post & E & Hne & -> & Hp & Hmax); f_equal.
        symmetry in E; apply app_eq_snoc in E as [[-> ->]|[post0 [-> ->]]]; [reflexivity|].
        exfalso; specialize (Hmax ((pre ++ post0) ++ [x])%list [] (eq_sym (app_nil_r _))).
        rewrite !length_app in Hmax; simpl in Hmax; rewrite Hmax in X; [discriminate|lia].
    + rewrite IH; split.
      * intros (pre & post & E & Hne & Hp & Hex & Hmax).
        subst l; exists pre, (post ++ [x])%list; rewrite app_assoc; repeat split; auto.
        intros pre' post' E' Hl; symmetry in E'.
        apply app_eq_snoc in E' as [[-> ->]|[post0 [-> E']]]; [exact X|].
        apply (Hmax pre' post0); [exact E'|exact Hl].
      * intros (pre & post & E & Hne & -> & Hex & Hmax).
        symmetry in E; apply app_eq_snoc in E as [[-> ->]|[post0 [-> ->]]].
        -- rewrite Hex in X; discriminate.
        -- exists pre, post0; repeat split; auto.
           intros pre' post' E' Hl; apply (Hmax pre' (post' ++ [x])%list); [|exact Hl].
           rewrite E', app_assoc; reflexivity.
Qed.

Lemma find_up_rev_none (comps : list string) (f : string) :
  find_up_rev w (rev comps) f = None <->
  (forall pre post, comps = (pre ++ post)%list -> pre <> [] ->
     exists_path w (path_join (dir_string pre) f) = false).
Proof.
  induction comps as [|x l IH] using rev_ind.
  - simpl; split; [|reflexivity].
    intros _ pre post E Hne; symmetry in E; apply app_eq_nil in E as [-> _]; congruence.
  - rewrite rev_app_distr; simpl; rewrite rev_involutive.
    destruct (exists_path w (path_join (dir_string (l ++ [x])) f)) eqn:X.
    + split; [discriminate|].
      intro H; rewrite (H (l ++ [x])%list []) in X; [discriminate| |].
      * rewrite app_nil_r; reflexivity.
      * intro N; apply app_eq_nil in N as [_ N]; discriminate.
    + rewrite IH; split.
      * intros H pre post E Hne.
        symmetry in E; apply app_eq_snoc in E as [[-> ->]|[post0 [-> ->]]]; [exact X|].
        apply (H pre post0); [reflexivity|exact Hne].
      * intros H pre post E Hne; apply (H pre (post ++ [x])%list); [|exact Hne].
        rewrite E, app_assoc; reflexivity.
Qed.

End World.

Lemma index_of_some (x : string) (l : list string) (j : nat) :
  index_of x l = Some j <->
  exists pre post, l = (pre ++ x :: post)%list /\ ~ In x pre /\ j = List.length pre.
Proof.
  revert j; induction l as [|y l IH]; intro j; simpl.
  - split; [discriminate|]; intros (pre & post & E & _); destruct pre; discriminate.
  - destruct (String.eqb x y) eqn:E.
    + apply String.eqb_eq in E; subst y; split.
      * intro H; injection H as <-; exists [], l; repeat split; auto.
      * intros (pre & post & E & Hn & ->); destruct pre as [|z pre]; [reflexivity|].
        injection E as -> _; exfalso; apply Hn; left; reflexivity.
    + apply String.eqb_neq in E; split.
      * destruct (index_of x l) as [k|] eqn:I; simpl; [|discriminate].
        intro H; injection H as <-.
        destruct (proj1 (IH k) eq_refl) as (pre & post & -> & Hn & ->).
        exists (y :: pre), post; repeat split; auto.
        intros [H|H]; [congruence|contradiction].
      * intros (pre & post & E' & Hn & ->); destruct pre as [|z pre].
        -- injection E' as ->; congruence.
        -- injection E' as -> E'.
           rewrite (proj2 (IH (List.length pre))); [reflexivity|].
           exists pre, post; repeat split; auto; intro H; apply Hn; right; exact H.
Qed.

Lemma index_of_none (x : string) (l : list string) :
  index_of x l = None <-> ~ In x l.
Proof.
  destruct (index_of x l) as [k|] eqn:I.
  - split; [discriminate|]; intro H; exfalso; apply H.
    destruct (proj1 (index_of_some x l k) I) as (pre & post & -> & _).
    apply in_or_app; right; left; reflexivity.
  - split; [intros _|reflexivity].
    induction l as [|y l IH]; simpl; [tauto|].
    simpl in I; destruct (String.eqb x y) eqn:E; [discriminate|].
    apply String.eqb_neq in E; destruct (index_of x l); [discriminate|].
    intros [H|H]; [congruence|exact (IH eq_refl H)].
Qed.

Lemma str_app_empty (x : string) : x ++ "" = x.
Proof. induction x as [|c x IH]; simpl; [|rewrite IH]; reflexivity. Qed.

Lemma contains_join (x : string) (l : list string) :
  In x l -> contains x (join "/" l) = true.
Proof.
  induction l as [|y l IH]; [intros []|]; intros [->|H].
  - destruct l; simpl; [rewrite <- (str_app_empty x) at 2|]; apply CleanFacts.contains_prefix.
  - destruct l as [|z l]; [destruct H|].
    change (join "/" (y :: z :: l)) with (y ++ "/" ++ join "/" (z :: l)).
    apply PyFacts.contains_app_r; change ("/" ++ join "/" (z :: l)) with (String "/" (join "/" (z :: l))).
    rewrite PyFacts.contains_cons, (IH H); apply orb_true_r.
Qed.

Lemma firstn_snoc_at {A} (pre post : list A) (x : A) :
  firstn (S (List.length pre)) (pre ++ x :: post) = (pre ++ [x])%list.
Proof. induction pre as [|y pre IH]; simpl; [reflexivity|]; f_equal; exact IH. Qed.

Lemma skipn_snoc_at {A} (pre post : list A) (x : A) :
  skipn (S (List.length pre)) (pre ++ x :: post) = post.
Proof. induction pre as [|y pre IH]; simpl; [reflexivity|]; exact IH. Qed.

End ConfigFacts.

(** ** Facts on [PackageBuilder.xml_escape] *)
Module XmlFacts.
Import Py SpecSide.

Lemma replace_single (a : ascii) (new s : string) :
  replace (String a EmptyString) new s
  = map_chars (fun c => if Ascii.eqb c a then new else String c EmptyString) s.
Proof.
  unfold replace; induction s as [|c s IH]; [reflexivity|].
  simpl; rewrite andb_true_r, Ascii.eqb_sym, IH.
  destruct (Ascii.eqb c a); reflexivity.
Qed.

Lemma map_chars_app (f : ascii -> string) (s t : string) :
  map_chars f (s ++ t) = map_chars f s ++ map_chars f t.
Proof.
  induction s as [|c s IH]; simpl; [reflexivity|].
  rewrite IH, PathFacts.app_assoc_str; reflexivity.
Qed.

Lemma map_chars_compose (f g : ascii -> string) (s : string) :
  map_chars g (map_chars f s) = map_chars (fun c => map_chars g (f c)) s.
Proof.
  induction s as [|c s IH]; simpl; [reflexivity|]; rewrite map_chars_app, IH; reflexivity.
Qed.

Lemma map_chars_ext (f g : ascii -> string) (s : string) :
  (forall c, f c = g c) -> map_chars f s = map_chars g s.
Proof. intro H; induction s as [|c s IH]; simpl; [reflexivity|]; rewrite H, IH; reflexivity. Qed.

Lemma contains_char_app (a : ascii) (s t : string) :
  contains (String a EmptyString) (s ++ t)
  = contains (String a EmptyString) s || contains (String a EmptyString) t.
Proof.
  induction s as [|c s IH]; [rewrite PyFacts.contains_empty; reflexivity|].
  change (String c s ++ t) with (String c (s ++ t)).
  rewrite !PyFacts.contains_cons, !PyFacts.startswith_char, IH, orb_assoc; reflexivity.
Qed.

Lemma map_chars_no_char (a : ascii) (f : ascii -> string) (s : string) :
  (forall c, contains (String a EmptyString) (f c) = false) ->
  contains (String a EmptyString) (map_chars f s) = false.
Proof.
  intro H; induction s as [|c s IH]; simpl; [reflexivity|].
  rewrite contains_char_app, H, IH; reflexivity.
Qed.

End XmlFacts.

(** X11: every command's configuration prologue ([RepoConfig()], the
    flags, [load_config]) succeeds and only echoes; the force and quiet
    flags are kept as given and the package manager path and group stay at
    their defaults, whatever a [.repo] file contains. *)
Theorem setup_config_keeps_flags (w : Repo.world) (force_flag quiet_flag : bool)
        (server_opt credentials_opt : option string) :
  exists t c, Repo.setup_config w force_flag quiet_flag server_opt credentials_opt = (t, Repo.Ok c)
    /\ Forall (fun e => exists s, e = Repo.Echo s) t
    /\ Repo.force c = force_flag /\ Repo.quiet c = quiet_flag
    /\ Repo.packmgr c = Repo.DEFAULT_PACKMGR
    /\ Repo.package_group c = Repo.DEFAULT_PACKAGE_GROUP.
Proof. apply RepoFacts.setup_config_spec. Qed.

(** X12: in [_parse_config_file], a last line [server=v] (or
    [credentials=v]) sets the server (or the credentials) to exactly [v],
    whatever the lines before it say; only the first equals sign splits the
    line, so [v] may contain more. Here [v] is made of printable ASCII
    characters other than the space. *)
Theorem parse_config_file_last_line_wins (w : Repo.world) (c : Repo.RepoConfig)
        (config_file v : string) (lines : list string) :
  forallb SpecSide.printable (list_ascii_of_string v) = true ->
  (Repo.read_lines w config_file = Some (List.app lines ["server=" ++ v]) ->
   exists c', Repo._parse_config_file w c config_file = ([], Repo.Ok c') /\ Repo.server c' = v)
  /\ (Repo.read_lines w config_file = Some (List.app lines ["credentials=" ++ v]) ->
      exists c', Repo._parse_config_file w c config_file = ([], Repo.Ok c')
                 /\ Repo.credentials c' = v).
Proof.
  intro Hv; unfold Repo._parse_config_file; split; intro R; rewrite R; eexists;
    (split; [reflexivity|]); rewrite fold_left_app; cbn [fold_left].
  - rewrite ConfigFacts.parse_line_server by exact Hv; reflexivity.
  - rewrite ConfigFacts.parse_line_credentials by exact Hv; reflexivity.
Qed.

Lemma parse_config_file_last_line_wins_witness :
  let w := Repo.mkWorld "/" (fun _ => []) (fun p => p) (fun _ => false) (fun _ => false)
             (fun _ => Some ["# comment"; "server = http://a:4502"; "server=http://b:4502/?x=y"])
             (fun _ => []) (fun _ => None) (fun _ => true) 0 "/tmp" (fun _ => true)
             (fun _ => Repo.NotFound "") in
  forallb SpecSide.printable (list_ascii_of_string "http://b:4502/?x=y") = true
  /\ exists c', Repo._parse_config_file w Repo.new_config "/.repo" = ([], Repo.Ok c')
                /\ Repo.server c' = "http://b:4502/?x=y".
Proof.
  intros w; split; [reflexivity|].
  apply (proj1 (parse_config_file_last_line_wins w Repo.new_config "/.repo" "http://b:4502/?x=y"
                  ["# comment"; "server = http://a:4502"] eq_refl)); reflexivity.
Defined.

(** X13: [_find_up] returns the file in the nearest directory, from the
    resolved start directory upwards, that has it; it returns None exactly
    when no directory on the way has it. The filesystem root itself is never
    looked at. *)
Theorem find_up_nearest (w : Repo.world) (start_path filename : string) :
  (forall p, Repo._find_up w start_path filename = Some p <->
     exists pre post, Repo.resolve w start_path = (pre ++ post)%list /\ pre <> [] /\
       p = Py.path_join (Repo.dir_string pre) filename /\ Repo.exists_path w p = true /\
       (forall pre' post', Repo.resolve w start_path = (pre' ++ post')%list ->
          List.length pre < List.length pre' ->
          Repo.exists_path w (Py.path_join (Repo.dir_string pre') filename) = false))
  /\ (Repo._find_up w start_path filename = None <->
      forall pre post, Repo.resolve w start_path = (pre ++ post)%list -> pre <> [] ->
        Repo.exists_path w (Py.path_join (Repo.dir_string pre) filename) = false).
Proof.
  split; [intro p; apply ConfigFacts.find_up_rev_some|apply ConfigFacts.find_up_rev_none].
Qed.

(** X14: [validate_jcr_root] succeeds exactly when a component of the
    resolved path is [jcr_root]; it then returns the path up to the first
    such component and, as filter path, the rest joined with slashes behind
    a slash (or just a slash). A path that only has [jcr_root] inside a
    longer component is refused with the usage error. *)
Theorem validate_jcr_root_spec (w : Repo.world) (path : string) :
  (forall jcr_root_path filter_path,
     Repo.validate_jcr_root w path = ([], Repo.Ok (jcr_root_path, filter_path)) <->
     exists pre post, Repo.resolve w path = (pre ++ "jcr_root" :: post)%list
       /\ ~ In "jcr_root" pre
       /\ jcr_root_path = Repo.dir_string (pre ++ ["jcr_root"])
       /\ filter_path = match post with [] => "/" | _ => "/" ++ Py.join "/" post end)
  /\ (~ In "jcr_root" (Repo.resolve w path) ->
      Repo.validate_jcr_root w path
      = ([], Repo.Err (Repo.UsageError
               ("Not inside a vault checkout with a jcr_root base directory: " ++ path)))).
Proof.
  split.
  - intros jr fp; unfold Repo.validate_jcr_root; split.
    + destruct (negb _); [discriminate|].
      destruct (Repo.index_of "jcr_root" (Repo.resolve w path)) as [j|] eqn:I; [|discriminate].
      apply ConfigFacts.index_of_some in I as (pre & post & E & Hn & ->).
      rewrite E, ConfigFacts.firstn_snoc_at, ConfigFacts.skipn_snoc_at.
      intro H; injection H as <- <-; exists pre, post; repeat split; auto.
      rewrite length_app; simpl.
      destruct post; simpl;
        [replace (Nat.ltb _ _) with false by (symmetry; apply Nat.ltb_ge; lia)
        |replace (Nat.ltb _ _) with true by (symmetry; apply Nat.ltb_lt; lia)]; reflexivity.
    + intros (pre & post & E & Hn & -> & ->).
      assert (C : Py.contains "jcr_root" (Repo.dir_string (Repo.resolve w path)) = true).
      { unfold Repo.dir_string; apply PyFacts.contains_app_r, ConfigFacts.contains_join.
        rewrite E; apply in_or_app; right; left; reflexivity. }
      rewrite C, (proj2 (ConfigFacts.index_of_some "jcr_root" _ (List.length pre)))
        by (exists pre, post; auto).
      rewrite E, ConfigFacts.firstn_snoc_at, ConfigFacts.skipn_snoc_at, length_app; simpl.
      destruct post; simpl;
        [replace (Nat.ltb _ _) with false by (symmetry; apply Nat.ltb_ge; lia)
        |replace (Nat.ltb _ _) with true by (symmetry; apply Nat.ltb_lt; lia)]; reflexivity.
  - intro H; unfold Repo.validate_jcr_root.
    rewrite (proj2 (ConfigFacts.index_of_none _ _) H).
    destruct (negb _); reflexivity.
Qed.

Lemma validate_jcr_root_spec_witness :
  let w := Repo.mkWorld "/" (fun _ => ["srv"; "my_jcr_root"; "apps"]) (fun p => p)
             (fun _ => false) (fun _ => false) (fun _ => None) (fun _ => []) (fun _ => None)
             (fun _ => true) 0 "/tmp" (fun _ => true) (fun _ => Repo.NotFound "") in
  ~ In "jcr_root" (Repo.resolve w "apps")
  /\ Repo.validate_jcr_root w "apps"
     = ([], Repo.Err (Repo.UsageError
              ("Not inside a vault checkout with a jcr_root base directory: " ++ "apps"))).
Proof.
  intros w.
  assert (H : ~ In "jcr_root" (Repo.resolve w "apps"))
    by (simpl; intros [H|[H|[H|[]]]]; discriminate).
  split; [exact H|exact (proj2 (validate_jcr_root_spec w "apps") H)].
Defined.

(** X15: [find_or_create_jcr_root] returns, when the resolved current
    path contains the text [jcr_root], that path cut just after its first
    occurrence, even inside a longer component, and creates nothing; it
    creates a directory only when the path does not contain [jcr_root] and
    [current/jcr_root] does not exist, and then only that one. *)
Theorem find_or_create_jcr_root_spec (w : Repo.world) (current_dir : string) :
  let current_path := Repo.dir_string (Repo.resolve w current_dir) in
  (forall i, Py.find "jcr_root" current_path = Some i ->
     Repo.find_or_create_jcr_root w current_dir
     = ([Repo.Echo ("Checking out into existing " ++ Py.take i current_path ++ "jcr_root")],
        Repo.Ok (Py.take i current_path ++ "jcr_root")))
  /\ (forall p, In (Repo.LocalMkdir p) (fst (Repo.find_or_create_jcr_root w current_dir)) ->
        Py.contains "jcr_root" current_path = false
        /\ Repo.exists_path w (Py.path_join current_path "jcr_root") = false
        /\ p = Py.path_join current_path "jcr_root").
Proof.
  intros cp; split.
  - intros i F; unfold Repo.find_or_create_jcr_root; fold cp.
    unfold Py.contains; rewrite F.
    unfold Py.split; cbn [Py.split_fuel]; rewrite F; reflexivity.
  - intros p; unfold Repo.find_or_create_jcr_root; fold cp.
    destruct (Py.contains "jcr_root" cp); simpl; [intros [H|[]]; discriminate|].
    destruct (Repo.exists_path w (Py.path_join cp "jcr_root")) eqn:X; simpl.
    + intros [H|[]]; discriminate.
    + intros [H|[H|[]]]; [injection H as <-; auto|discriminate].
Qed.

Lemma find_or_create_jcr_root_spec_witness :
  let w := Repo.mkWorld "/" (fun _ => ["home"; "my_jcr_root_old"; "x"]) (fun p => p)
             (fun _ => false) (fun _ => false) (fun _ => None) (fun _ => []) (fun _ => None)
             (fun _ => true) 0 "/tmp" (fun _ => true) (fun _ => Repo.NotFound "") in
  Py.find "jcr_root" (Repo.dir_string (Repo.resolve w ".")) = Some 9
  /\ Repo.find_or_create_jcr_root w "."
     = ([Repo.Echo ("Checking out into existing "
                    ++ Py.take 9 (Repo.dir_string (Repo.resolve w ".")) ++ "jcr_root")],
        Repo.Ok (Py.take 9 (Repo.dir_string (Repo.resolve w ".")) ++ "jcr_root")).
Proof.
  intros w; split; [vm_compute; reflexivity|].
  apply (proj1 (find_or_create_jcr_root_spec w ".")); vm_compute; reflexivity.
Defined.

(** X16: [PackageBuilder.xml_escape] escapes character by character:
    [&], [<], [>], the double quote and the single quote become their
    entities and every other character is kept (escaping the ampersand first
    never escapes an entity twice); so the result contains none of [<], [>],
    the double quote and the single quote. *)
Theorem xml_escape_charwise (text : string) :
  Builder.xml_escape text = SpecSide.escape_each text
  /\ Py.contains "<" (Builder.xml_escape text) = false
  /\ Py.contains ">" (Builder.xml_escape text) = false
  /\ Py.contains Builder.dq (Builder.xml_escape text) = false
  /\ Py.contains "'" (Builder.xml_escape text) = false.
Proof.
  assert (E : Builder.xml_escape text = SpecSide.escape_each text).
  { unfold Builder.xml_escape, Builder.dq, SpecSide.escape_each.
    rewrite !XmlFacts.replace_single, !XmlFacts.map_chars_compose.
    apply XmlFacts.map_chars_ext; intro c.
    destruct c as [[] [] [] [] [] [] [] []]; reflexivity. }
  rewrite E; unfold SpecSide.escape_each, Builder.dq.
  repeat split; try reflexivity; apply XmlFacts.map_chars_no_char; intro c;
    destruct c as [[] [] [] [] [] [] [] []]; reflexivity.
Qed.

(** ** Facts on the transfers of [get] and [put] *)
Module TransferFacts.
Import Py Repo SpecSide RepoFacts.

Definition nolocal (e : event) : Prop := is_local e = false.

Lemma cbl_app (t1 t2 : list event) :
  Forall nolocal t1 ->
  confirmed_before_local t2 = true -> confirmed_before_local (t1 ++ t2) = true.
Proof.
  induction 1 as [|e t1 He _ IH]; intro H2; [exact H2|].
  unfold nolocal in He.
  simpl; destruct e as [| | |p [|] | | | | |]; simpl in *; try rewrite IH by exact H2;
    try reflexivity; discriminate.
Qed.

Lemma cbl_bind {A B} (m : M A) (k : A -> M B) :
  Forall nolocal (fst m) ->
  (forall a, snd m = Ok a -> confirmed_before_local (fst (k a)) = true) ->
  confirmed_before_local (fst (bind m k)) = true.
Proof.
  destruct m as [t [a|e]]; simpl; intros Hm Hk.
  - specialize (Hk a eq_refl); destruct (k a) as [t' r]; simpl in *.
    apply cbl_app; assumption.
  - rewrite <- (app_nil_r t); apply cbl_app; [exact Hm| reflexivity].
Qed.

Lemma try_click_fst {A} (pre : string) (m : M A) : fst (try_click pre m) = fst m.
Proof. destruct m as [t [a|e]]; reflexivity. Qed.

Lemma inert_nolocal (t : list event) : Forall inert t -> Forall nolocal t.
Proof. apply Forall_impl; intros e H; exact (proj1 (proj2 H)). Qed.

Section World.
Variable w : world.

Lemma nolocal_upload (c : RepoConfig) : Forall nolocal (fst (upload_package w c)).
Proof. unfold upload_package; simpl; destruct (http_ok _ _); repeat constructor. Qed.

Lemma nolocal_post (c : RepoConfig) (cmd label pp : string) :
  Forall nolocal (fst (post_package w c cmd label pp)).
Proof. unfold post_package; simpl; destruct (http_ok _ _); repeat constructor. Qed.

Lemma nolocal_download (c : RepoConfig) (pp op : string) :
  Forall nolocal (fst (download_package w c pp op)).
Proof. unfold download_package; simpl; destruct (http_ok _ _); repeat constructor. Qed.

Ltac solve_nolocal :=
  solve [ apply inert_nolocal; solve_inert
        | apply nolocal_upload | apply nolocal_post | apply nolocal_download ].

Lemma get_transfer_cbl (c : RepoConfig) (jr fp path pp temp_dir : string) :
  force c = false -> quiet c = false ->
  confirmed_before_local (fst (get_transfer w c jr fp path pp temp_dir)) = true.
Proof.
  intros Hf Hq; unfold get_transfer; rewrite try_click_fst, Hf, Hq; cbv zeta.
  repeat (apply cbl_bind; [solve_nolocal | intros ? _]).
  simpl; destruct (confirm w _); simpl;
    [destruct (get_install _ _ _ _ _ _)|]; reflexivity.
Qed.

Lemma get_transfer_declined (c : RepoConfig) (jr fp path pp temp_dir : string) :
  force c = false -> quiet c = false ->
  confirm w "Download and overwrite locally?" = false ->
  Forall nolocal (fst (get_transfer w c jr fp path pp temp_dir)).
Proof.
  intros Hf Hq Hd; unfold get_transfer; rewrite try_click_fst, Hf, Hq; cbv zeta.
  repeat (apply Forall_bind_ok; [solve_nolocal | intros ? _]).
  simpl; rewrite Hd; repeat constructor.
Qed.

(** Requests of [put]: none, or the upload, install and delete requests in
    this order, cut after a failed one. *)
Definition put_requests (m : M unit) : Prop :=
  requests (fst m) = []
  \/ (exists u, requests (fst m) = [Upload u])
  \/ (exists u i, requests (fst m) = [Upload u; Post i] /\ endswith "?cmd=install" i = true)
  \/ (exists u i d, requests (fst m) = [Upload u; Post i; Post d]
                    /\ endswith "?cmd=install" i = true /\ endswith "?cmd=delete" d = true).

(** Requests of [put] when every upload succeeds and every other request
    fails. *)
Definition put_requests_install_fails (m : M unit) : Prop :=
  requests (fst m) = []
  \/ (exists u i, requests (fst m) = [Upload u; Post i] /\ endswith "?cmd=install" i = true
                  /\ snd m = Err (ClickException "Upload failed: Failed to install package: <response>")).

Lemma requests_app (t1 t2 : list event) : requests (t1 ++ t2) = (requests t1 ++ requests t2)%list.
Proof. apply flat_map_app. Qed.

Lemma requests_nonet (t : list event) :
  Forall (fun e => is_net e = false) t -> requests t = [].
Proof.
  induction 1 as [|e t He _ IH]; [reflexivity|].
  destruct e; try discriminate; exact IH.
Qed.

Lemma inert_nonet (t : list event) : Forall inert t -> Forall (fun e => is_net e = false) t.
Proof. apply Forall_impl; intros e H; exact (proj1 H). Qed.

Lemma put_requests_bind {A} (P : M unit -> Prop) (m : M A) (k : A -> M unit) :
  (forall t r, requests t = [] -> P (t, r)) ->
  (forall t t' r, requests t = [] -> P (t', r) -> P ((t ++ t')%list, r)) ->
  Forall (fun e => is_net e = false) (fst m) -> (forall a, snd m = Ok a -> P (k a)) ->
  P (bind m k).
Proof.
  intros Hnil Happ; destruct m as [t [a|e]]; simpl; intros Hm Hk.
  - specialize (Hk a eq_refl); destruct (k a) as [t' r].
    apply Happ; [apply requests_nonet, Hm|exact Hk].
  - apply Hnil, requests_nonet, Hm.
Qed.

Lemma put_requests_nil (t : list event) (r : outcome unit) :
  requests t = [] -> put_requests (t, r).
Proof. intro H; left; exact H. Qed.

Lemma put_requests_app (t t' : list event) (r : outcome unit) :
  requests t = [] -> put_requests (t', r) -> put_requests ((t ++ t')%list, r).
Proof. unfold put_requests; simpl; rewrite requests_app; intros ->; exact (fun H => H). Qed.

Lemma put_fails_nil (t : list event) (r : outcome unit) :
  requests t = [] -> put_requests_install_fails (t, r).
Proof. intro H; left; exact H. Qed.

Lemma put_fails_app (t t' : list event) (r : outcome unit) :
  requests t = [] -> put_requests_install_fails (t', r) ->
  put_requests_install_fails ((t ++ t')%list, r).
Proof. unfold put_requests_install_fails; simpl; rewrite requests_app; intros ->; exact (fun H => H). Qed.

Lemma endswith_app (p s : string) : endswith p (s ++ p) = true.
Proof.
  unfold endswith; rewrite PathFacts.length_app.
  replace (String.length s + String.length p - String.length p) with (String.length s) by lia.
  rewrite PyFacts.drop_app, String.eqb_refl, andb_true_r; apply Nat.leb_le; lia.
Qed.

Lemma post_url_endswith (c : RepoConfig) (pp cmd : string) :
  endswith ("?cmd=" ++ cmd)
    (server c ++ packmgr c ++ "/etc/packages/" ++ pp ++ "?cmd=" ++ cmd) = true.
Proof.
  replace (server c ++ packmgr c ++ "/etc/packages/" ++ pp ++ "?cmd=" ++ cmd)
    with ((server c ++ packmgr c ++ "/etc/packages/" ++ pp) ++ ("?cmd=" ++ cmd))
    by (rewrite !PathFacts.app_assoc_str; reflexivity).
  apply endswith_app.
Qed.

Lemma put_transfer_requests (c : RepoConfig) (pp : string) :
  put_requests (put_transfer w c pp).
Proof.
  unfold put_transfer, try_click, upload_package, post_package, put_requests; cbv zeta.
  pose proof (post_url_endswith c pp "install") as Hi.
  pose proof (post_url_endswith c pp "delete") as Hd.
  simpl in Hi, Hd.
  destruct (http_ok w (Upload _)); try destruct (http_ok w (Post _));
    try destruct (http_ok w (Post _)); destruct (quiet c); simpl;
    first [ left; reflexivity
          | right; left; eexists; reflexivity
          | right; right; left; do 2 eexists; split; [reflexivity|exact Hi]
          | right; right; right; do 3 eexists; split; [reflexivity|split; [exact Hi|exact Hd]] ].
Qed.

Lemma put_transfer_install_fails (c : RepoConfig) (pp : string) :
  (forall r, http_ok w r = match r with Upload _ => true | _ => false end) ->
  put_requests_install_fails (put_transfer w c pp).
Proof.
  intro Hh; unfold put_transfer, try_click, upload_package, post_package,
    put_requests_install_fails; cbv zeta.
  pose proof (post_url_endswith c pp "install") as Hi; simpl in Hi.
  rewrite !Hh; destruct (quiet c); simpl; right; do 2 eexists;
    (split; [reflexivity|split; [exact Hi|reflexivity]]).
Qed.

End World.
End TransferFacts.

(** X17: [checkout] refuses a JCR path that does not start with a slash,
    or that is the root [/], with a usage error, having done nothing but
    echo: no request, no directory created. *)
Theorem checkout_rejects_bad_jcr_path (w : Repo.world) (jcr_path : string)
        (so co : option string) (force_flag quiet_flag : bool) :
  Py.startswith "/" jcr_path = false \/ jcr_path = "/" ->
  (exists msg, snd (Repo.checkout w jcr_path so co force_flag quiet_flag)
               = Repo.Err (Repo.UsageError msg))
  /\ Forall (fun e => exists s, e = Repo.Echo s)
            (fst (Repo.checkout w jcr_path so co force_flag quiet_flag)).
Proof.
  intro H; unfold Repo.checkout.
  destruct (RepoFacts.setup_config_spec w force_flag quiet_flag so co)
    as (t & c & Hs & Ht & _); rewrite Hs.
  assert (Hj : exists msg, (if negb (Py.startswith "/" jcr_path)
                 then Repo.throw (Repo.UsageError "JCR path must start with /")
                 else if String.eqb jcr_path "/" then
                   Repo.throw (Repo.UsageError "Refusing to work on repository root (would be too slow or overwrite everything)")
                 else @pair (list Repo.event) (Repo.outcome unit) [] (Repo.Ok tt)) = ([], Repo.Err (Repo.UsageError msg))).
  { destruct H as [H| ->]; [rewrite H; eexists; reflexivity|eexists; reflexivity]. }
  destruct Hj as [msg Hj].
  destruct H as [H| ->].
  - rewrite H in Hj |- *; simpl.
    destruct (Repo.quiet c); simpl; rewrite ?app_nil_r; split; eauto;
      try (apply Forall_app; split; [exact Ht|repeat constructor; eexists; reflexivity]); exact Ht.
  - simpl.
    destruct (Repo.quiet c); simpl; rewrite ?app_nil_r; split; eauto;
      try (apply Forall_app; split; [exact Ht|repeat constructor; eexists; reflexivity]); exact Ht.
Qed.

Lemma checkout_rejects_bad_jcr_path_witness :
  (Py.startswith "/" "content/site" = false \/ "content/site" = "/")
  /\ (exists msg, snd (Repo.checkout (Fixtures.world0 None true) "content/site" None None false false)
                  = Repo.Err (Repo.UsageError msg)).
Proof.
  assert (H : Py.startswith "/" "content/site" = false \/ "content/site" = "/")
    by (left; reflexivity).
  split; [exact H|].
  exact (proj1 (checkout_rejects_bad_jcr_path (Fixtures.world0 None true) "content/site"
                  None None false false H)).
Defined.

(** X18: [get] without [--force] and [--quiet] touches nothing in the
    checkout (no removal, copy or directory creation) before the
    "Download and overwrite locally?" confirmation is answered yes; when it
    is answered no, nothing in the checkout is touched at all. *)
Theorem get_confirms_before_local (w : Repo.world) (path : string) (so co : option string) :
  let m := Repo.get w path so co false false in
  SpecSide.confirmed_before_local (fst m) = true
  /\ (Repo.confirm w "Download and overwrite locally?" = false ->
      Forall (fun e => SpecSide.is_local e = false) (fst m)).
Proof.
  cbv zeta; unfold Repo.get.
  destruct (RepoFacts.setup_config_spec w false false so co) as (t & c & Hs & Ht & Hf & Hq & _).
  assert (Hi : Forall SpecSide.inert t).
  { eapply Forall_impl; [|exact Ht]; intros e [s ->]; repeat split. }
  rewrite Hs; split; [|intro Hd].
  - apply TransferFacts.cbl_bind; [apply TransferFacts.inert_nolocal, Hi|intros a Ha; injection Ha as <-].
    apply TransferFacts.cbl_bind;
      [apply TransferFacts.inert_nolocal, RepoFacts.inert_validate|intros [jr fp] _].
    destruct (String.eqb fp "/"); [reflexivity|].
    rewrite Hq; cbv zeta.
    repeat (apply TransferFacts.cbl_bind;
      [solve [apply TransferFacts.inert_nolocal; RepoFacts.solve_inert] | intros ? _]).
    apply TransferFacts.get_transfer_cbl; assumption.
  - apply RepoFacts.Forall_bind_ok;
      [apply TransferFacts.inert_nolocal, Hi|intros a Ha; injection Ha as <-].
    apply RepoFacts.Forall_bind_ok;
      [apply TransferFacts.inert_nolocal, RepoFacts.inert_validate|intros [jr fp] _].
    destruct (String.eqb fp "/"); [constructor|].
    rewrite Hq; cbv zeta.
    repeat (apply RepoFacts.Forall_bind_ok;
      [solve [apply TransferFacts.inert_nolocal; RepoFacts.solve_inert] | intros ? _]).
    apply TransferFacts.get_transfer_declined; assumption.
Qed.

Lemma get_confirms_before_local_witness :
  Repo.confirm (Fixtures.world0 None false) "Download and overwrite locally?" = false
  /\ Forall (fun e => SpecSide.is_local e = false)
            (fst (Repo.get (Fixtures.world0 None false) "." None None false false)).
Proof.
  split; [reflexivity|].
  apply (proj2 (get_confirms_before_local (Fixtures.world0 None false) "." None None));
    reflexivity.
Defined.

(** X19: the requests [put] sends are a prefix of: the upload, then the
    install request (a POST ending in [?cmd=install]), then the delete
    request (a POST ending in [?cmd=delete]); it never sends any other
    request, and never installs or deletes without uploading first. *)
Theorem put_request_order (w : Repo.world) (path : string) (so co : option string)
        (force_flag quiet_flag : bool) :
  TransferFacts.put_requests (Repo.put w path so co force_flag quiet_flag).
Proof.
  unfold Repo.put.
  apply TransferFacts.put_requests_bind;
    [ apply TransferFacts.put_requests_nil | apply TransferFacts.put_requests_app
    | apply TransferFacts.inert_nonet, RepoFacts.inert_setup | intros config _ ].
  apply TransferFacts.put_requests_bind;
    [ apply TransferFacts.put_requests_nil | apply TransferFacts.put_requests_app
    | apply TransferFacts.inert_nonet, RepoFacts.inert_validate | intros [jr fp] _ ].
  destruct (String.eqb fp "/"); [left; reflexivity|]; cbv zeta.
  repeat (apply TransferFacts.put_requests_bind;
    [ apply TransferFacts.put_requests_nil | apply TransferFacts.put_requests_app
    | solve [apply TransferFacts.inert_nonet; RepoFacts.solve_inert] | intros ? _ ]).
  destruct (negb _ && negb _); [|apply TransferFacts.put_transfer_requests].
  apply TransferFacts.put_requests_bind;
    [ apply TransferFacts.put_requests_nil | apply TransferFacts.put_requests_app
    | repeat constructor | intros ? _ ].
  destruct (Repo.confirm w _); [apply TransferFacts.put_transfer_requests|left; reflexivity].
Qed.

(** X20: when the upload succeeds but the install request fails, [put]
    never sends the delete request, so the uploaded package stays on the
    server, and the command fails with "Upload failed: Failed to install
    package". *)
Theorem put_install_failure_keeps_package (w : Repo.world) (path : string)
        (so co : option string) (force_flag quiet_flag : bool) :
  (forall r, Repo.http_ok w r = match r with Repo.Upload _ => true | _ => false end) ->
  TransferFacts.put_requests_install_fails (Repo.put w path so co force_flag quiet_flag).
Proof.
  intro Hh; unfold Repo.put.
  apply TransferFacts.put_requests_bind;
    [ apply TransferFacts.put_fails_nil | apply TransferFacts.put_fails_app
    | apply TransferFacts.inert_nonet, RepoFacts.inert_setup | intros config _ ].
  apply TransferFacts.put_requests_bind;
    [ apply TransferFacts.put_fails_nil | apply TransferFacts.put_fails_app
    | apply TransferFacts.inert_nonet, RepoFacts.inert_validate | intros [jr fp] _ ].
  destruct (String.eqb fp "/"); [left; reflexivity|]; cbv zeta.
  repeat (apply TransferFacts.put_requests_bind;
    [ apply TransferFacts.put_fails_nil | apply TransferFacts.put_fails_app
    | solve [apply TransferFacts.inert_nonet; RepoFacts.solve_inert] | intros ? _ ]).
  destruct (negb _ && negb _); [|apply TransferFacts.put_transfer_install_fails, Hh].
  apply TransferFacts.put_requests_bind;
    [ apply TransferFacts.put_fails_nil | apply TransferFacts.put_fails_app
    | repeat constructor | intros ? _ ].
  destruct (Repo.confirm w _);
    [apply TransferFacts.put_transfer_install_fails, Hh|left; reflexivity].
Qed.

Lemma put_install_failure_keeps_package_witness :
  let w0 := Fixtures.world0 None true in
  let w := Repo.mkWorld (Repo.cwd w0) (Repo.resolve w0) (Repo.abspath w0) (Repo.exists_path w0)
             (Repo.is_dir w0) (Repo.read_lines w0) (Repo.listdir w0) (Repo.tree_at w0)
             (Repo.confirm w0) (Repo.now w0) (Repo.tmp w0)
             (fun r => match r with Repo.Upload _ => true | _ => false end) (Repo.run w0) in
  (forall r, Repo.http_ok w r = match r with Repo.Upload _ => true | _ => false end)
  /\ TransferFacts.put_requests_install_fails (Repo.put w "." None None false false).
Proof.
  intros w0 w.
  assert (H : forall r, Repo.http_ok w r = match r with Repo.Upload _ => true | _ => false end)
    by (intro r; reflexivity).
  split; [exact H|exact (put_install_failure_keeps_package w "." None None false false H)].
Defined.


Module StatusFacts.
Import Py PyFacts.

Lemma lstrip_empty (cs s : string) :
  lstrip cs s = EmptyString -> forallb (fun c => char_in c cs) (list_ascii_of_string s) = true.
Proof.
  induction s as [|c s IH]; simpl; [reflexivity|].
  destruct (char_in c cs); [exact IH|discriminate].
Qed.

Lemma rev_string_empty (s : string) : rev_string s = EmptyString -> s = EmptyString.
Proof.
  unfold rev_string; intro H.
  rewrite <- (string_of_list_ascii_of_string s).
  destruct (list_ascii_of_string s) as [|c l] eqn:E; [reflexivity|].
  simpl in H; destruct (rev l); discriminate.
Qed.

Lemma strip_empty (cs s : string) :
  strip cs s = EmptyString ->
  forallb (fun c => char_in c cs) (list_ascii_of_string (lstrip cs s)) = true.
Proof.
  unfold strip, rstrip; intro H.
  apply rev_string_empty, lstrip_empty in H.
  unfold rev_string in H; rewrite list_ascii_of_string_of_list_ascii in H.
  rewrite forallb_forall in *; intros x Hx; apply H; rewrite <- in_rev; exact Hx.
Qed.

Lemma strip_only_in (r : string) : strip whitespace ("Only in /" ++ r) <> EmptyString.
Proof.
  intro H; apply strip_empty in H; simpl in H; discriminate H.
Qed.

End StatusFacts.

(** X21: a line of [diff -rq] of the form "Only in /<dir>: <name>", which
    is how diff reports a file present on one side when its operands are
    absolute paths, produces no status output when the rest of the line
    contains none of "Only in LOCAL", "Only in REMOTE" and "File REMOTE":
    the "A" and "D" branches of [show_status_diff] match only relative
    LOCAL/REMOTE paths. *)
Theorem status_line_absolute_only_in (r : string) :
  Py.contains "Only in LOCAL" r = false ->
  Py.contains "Only in REMOTE" r = false ->
  Py.contains "File REMOTE" r = false ->
  Repo.status_line ("Only in /" ++ r) = ([], Repo.Ok tt).
Proof.
  intros HL HR HF; unfold Repo.status_line.
  destruct (String.eqb (Py.strip Py.whitespace ("Only in /" ++ r)) "") eqn:E.
  { apply String.eqb_eq, StatusFacts.strip_only_in in E; contradiction. }
  simpl; rewrite !PyFacts.contains_cons; simpl.
  rewrite HL, HR, HF; reflexivity.
Qed.

Lemma status_line_absolute_only_in_witness :
  let r := "tmp/tmpab12/diffbase/LOCAL/apps: new.txt" in
  Py.contains "Only in LOCAL" r = false /\ Py.contains "Only in REMOTE" r = false /\
  Py.contains "File REMOTE" r = false /\
  Repo.status_line ("Only in /" ++ r) = ([], Repo.Ok tt).
Proof.
  intro r.
  assert (H1 : Py.contains "Only in LOCAL" r = false) by reflexivity.
  assert (H2 : Py.contains "Only in REMOTE" r = false) by reflexivity.
  assert (H3 : Py.contains "File REMOTE" r = false) by reflexivity.
  split; [exact H1|split; [exact H2|split; [exact H3|]]].
  exact (status_line_absolute_only_in r H1 H2 H3).
Defined.

(** ** Copies that fail *)
Module CopyFailFacts.
Import Py Repo SpecSide RepoFacts.

Lemma copy_content_top_fails (source : string) (es : list (string * Tree.fsnode))
      (ex : list string) :
  (exists name c, file_at (Tree.FDir es) [name] c /\ kept ex source [name]) ->
  exists name, Tree.copy_content source (Tree.FDir es) ex false = ([], Some [name]).
Proof.
  intros (name & c & Hf & Hk).
  assert (Hin : In ([name], c) (Tree.copy_walk ex source [] (Tree.FDir es))).
  { apply TreeFacts.copy_walk_spec; exists [name].
    split; [reflexivity|split; [discriminate|split; assumption]]. }
  destruct (TreeFacts.copy_walk_head_top ex source es name c Hin) as (f' & c' & l & E).
  exists f'; unfold Tree.copy_content; rewrite TreeFacts.copy_files_false, E; reflexivity.
Qed.

Lemma copy_events_top_fails (w : world) (mk : string -> event) (source dest : string)
      (ex : list string) (es : list (string * Tree.fsnode)) :
  tree_at w source = Some (Tree.FDir es) ->
  (exists name c, file_at (Tree.FDir es) [name] c /\ kept ex source [name]) ->
  exists name, copy_events w mk source dest ex false
               = ([], Err (PyException ("[Errno 2] No such file or directory: '"
                                        ++ path_join dest name ++ "'"))).
Proof.
  intros Ht Htop; destruct (copy_content_top_fails source es ex Htop) as [name E].
  exists name; unfold copy_events; rewrite Ht, E; reflexivity.
Qed.





Definition fails_inert {A} (m : M A) : Prop :=
  Forall inert (fst m) /\ exists msg, snd m = Err (PyException msg).

Lemma fails_inert_bind {A B} (m : M A) (k : A -> M B) :
  Forall inert (fst m) -> (forall e, snd m = Err e -> exists msg, e = PyException msg) ->
  (forall a, snd m = Ok a -> fails_inert (k a)) -> fails_inert (bind m k).
Proof.
  unfold fails_inert; destruct m as [t [a|e]]; simpl; intros Hm He Hk.
  - destruct (Hk a eq_refl) as [H1 H2]; destruct (k a) as [t' r]; simpl in *.
    split; [apply Forall_app; split; assumption|exact H2].
  - split; [exact Hm|]; destruct (He e eq_refl) as [msg ->]; eauto.
Qed.

Ltac err_py :=
  let e := fresh "e" in let He := fresh "He" in
  intros e He; try unfold Repo.new_package_manager in He; simpl in He;
  repeat (match type of He with context [if ?b then _ else _] => destruct b end);
  simpl in He; try discriminate He; injection He as <-; eexists; reflexivity.

End CopyFailFacts.

(** X22: [put] of a folder in which some file lying directly inside it is
    kept by the excludes always fails with a Python exception: the copy
    into the package goes to [jcr_root/<filter path>], which nothing has
    made, so [shutil.copy2] raises [FileNotFoundError] (unless creating the
    package manager has failed first). It fails before the confirmation
    and sends no request; nothing in the checkout is touched. *)
Theorem put_folder_with_top_file_fails (w : Repo.world) (path jr fp : string)
        (so co : option string) (force_flag quiet_flag : bool)
        (es : list (string * Tree.fsnode)) :
  snd (Repo.validate_jcr_root w path) = Repo.Ok (jr, fp) -> fp <> "/" ->
  Repo.is_dir w path = true -> Repo.tree_at w path = Some (Tree.FDir es) ->
  (exists name c, SpecSide.file_at (Tree.FDir es) [name] c
                  /\ SpecSide.kept (Repo.get_excludes w jr) path [name]) ->
  Forall SpecSide.inert (fst (Repo.put w path so co force_flag quiet_flag))
  /\ exists msg, snd (Repo.put w path so co force_flag quiet_flag)
                 = Repo.Err (Repo.PyException msg).
Proof.
  intros Hv Hfp Hd Ht Htop.
  change (CopyFailFacts.fails_inert (Repo.put w path so co force_flag quiet_flag)).
  unfold Repo.put.
  destruct (RepoFacts.setup_config_spec w force_flag quiet_flag so co) as (t & c & Hs & Ht' & _).
  rewrite Hs.
  apply CopyFailFacts.fails_inert_bind;
    [ eapply Forall_impl; [|exact Ht']; intros e [s ->]; repeat split
    | intros e [=] | intros a Ha; injection Ha as <- ].
  assert (Ev : Repo.validate_jcr_root w path = ([], Repo.Ok (jr, fp))).
  { rewrite (surjective_pairing (Repo.validate_jcr_root w path)), RepoFacts.validate_jcr_root_trace, Hv.
    reflexivity. }
  rewrite Ev.
  apply CopyFailFacts.fails_inert_bind;
    [constructor| intros e [=] | intros a Ha; simpl in Ha; injection Ha as <-].
  cbn beta iota.
  destruct (String.eqb fp "/") eqn:E; [apply String.eqb_eq in E; contradiction|].
  cbv zeta; rewrite Hd.
  destruct (CopyFailFacts.copy_events_top_fails w Repo.StageWrite path
              (Py.path_join (Py.path_join (Repo.tmp w) "jcr_root") (Py.lstrip "/" fp))
              (Repo.get_excludes w jr) es Ht Htop) as [name Ec].
  rewrite Ec.
  repeat (apply CopyFailFacts.fails_inert_bind;
    [ solve [RepoFacts.solve_inert | constructor]
    | CopyFailFacts.err_py
    | let a := fresh "a" in let Ha := fresh "Ha" in
      intros a Ha; try (simpl in Ha; discriminate Ha) ]).
Qed.

Lemma put_folder_with_top_file_fails_witness :
  let w0 := Fixtures.world0 None true in
  let w := Repo.mkWorld (Repo.cwd w0) (Repo.resolve w0) (Repo.abspath w0) (Repo.exists_path w0)
             (Repo.is_dir w0) (Repo.read_lines w0) (fun _ => ["a.txt"])
             (fun _ => Some (Tree.FDir [("a.txt", Tree.FFile "x")]))
             (Repo.confirm w0) (Repo.now w0) (Repo.tmp w0) (Repo.http_ok w0) (Repo.run w0) in
  Forall SpecSide.inert (fst (Repo.put w "." None None false false))
  /\ exists msg, snd (Repo.put w "." None None false false) = Repo.Err (Repo.PyException msg).
Proof.
  intros w0 w.
  apply (put_folder_with_top_file_fails w "." "/home/u/site/jcr_root" "/apps/site"
           None None false false [("a.txt", Tree.FFile "x")]).
  - vm_compute; reflexivity.
  - discriminate.
  - reflexivity.
  - reflexivity.
  - exists "a.txt", "x"; split.
    + econstructor; [left; reflexivity|constructor].
    + simpl; split; [vm_compute; reflexivity|exact I].
Defined.


